(** * go-base-repository: unified query identifier and repository facades

    A shallow embedding of
      - pkg/identifier  (UnifiedIdentifier and its builder methods),
      - pkg/types       (Identifier, SortDirection, SortMap, QueryParams),
      - pkg/mongo and pkg/postgres (the two BaseRepository facades),
    together with the properties stated about them. *)

From stdpp Require Import gmap strings list fin_maps.

Set Default Proof Using "Type".


(** ** Values

    Go's [interface{}] as far as filters use it: scalars, slices and
    nested documents.  [map[string]interface{}] is [gmap string Value]. *)

#[warnings="-register-all"] Inductive Value : Type :=
| VNil
| VBool (b : bool)
| VInt (z : Z)
| VStr (s : string)
| VSlice (vs : list Value)
| VDoc (d : gmap string Value).

(** Go's [error]: [None] is the nil error. *)
Definition error : Type := option string.

(** ** The native filter builders (external interfaces)

    [mongoIdentifier.IIdentifier] and [postgresIdentifier.IIdentifier] are
    interfaces of the two unit-of-work systems.  Only the methods that
    pkg/identifier calls are listed.  A builder method returns a builder
    again (the fluent style the unified identifier relies on), so the
    results are values of the carrier, not nil. *)

Module mongoIdentifier.
Class IIdentifier (N : Type) : Type := {
  New : N;
  Equal : string → Value → N → N;
  GreaterThan : string → Value → N → N;
  LessThan : string → Value → N → N;
  Between : string → Value → Value → N → N;
  Like : string → string → N → N;
  In : string → list Value → N → N;
  ToBSON : N → gmap string Value;
  Has : string → N → bool
}.
End mongoIdentifier.

Module postgresIdentifier.
Class IIdentifier (N : Type) : Type := {
  NewIdentifier : N;
  Equal : string → Value → N → N;
  GreaterThan : string → Value → N → N;
  LessThan : string → Value → N → N;
  Between : string → Value → Value → N → N;
  Like : string → string → N → N;
  In : string → list Value → N → N;
  ToMap : N → gmap string Value
}.
End postgresIdentifier.

(** ** pkg/identifier *)

Module identifier.

(** The struct behind a [*UnifiedIdentifier].  A nil interface field is
    [None]. *)
Record UnifiedIdentifier (M P : Type) : Type := mkUnified {
  mongoID : option M;
  postgresID : option P
}.
Arguments mkUnified {M P} _ _.
Arguments mongoID {M P} _.
Arguments postgresID {M P} _.

Section Methods.
Context {M P : Type}.
Context `{!mongoIdentifier.IIdentifier M} `{!postgresIdentifier.IIdentifier P}.

Local Abbreviation UI := (UnifiedIdentifier M P).

Definition NewMongoIdentifier : UI :=
  mkUnified (Some mongoIdentifier.New) None.

Definition NewPostgresIdentifier : UI :=
  mkUnified None (Some postgresIdentifier.NewIdentifier).

(** The two field assignments every builder method is made of.  The
    receiver is updated in place and returned; the updated struct is
    the result. *)
Definition onMongo (f : M → M) (u : UI) : UI :=
  match mongoID u with
  | Some m => mkUnified (Some (f m)) (postgresID u)
  | None => u
  end.

Definition onPostgres (g : P → P) (u : UI) : UI :=
  match postgresID u with
  | Some p => mkUnified (mongoID u) (Some (g p))
  | None => u
  end.

Definition Equal (field : string) (value : Value) (u : UI) : UI :=
  let u := onMongo (mongoIdentifier.Equal field value) u in
  let u := onPostgres (postgresIdentifier.Equal field value) u in
  u.

Definition GreaterThan (field : string) (value : Value) (u : UI) : UI :=
  let u := onMongo (mongoIdentifier.GreaterThan field value) u in
  let u := onPostgres (postgresIdentifier.GreaterThan field value) u in
  u.

Definition LessThan (field : string) (value : Value) (u : UI) : UI :=
  let u := onMongo (mongoIdentifier.LessThan field value) u in
  let u := onPostgres (postgresIdentifier.LessThan field value) u in
  u.

Definition Between (field : string) (min max : Value) (u : UI) : UI :=
  let u := onMongo (mongoIdentifier.Between field min max) u in
  let u := onPostgres (postgresIdentifier.Between field min max) u in
  u.

Definition Like (field : string) (pattern : string) (u : UI) : UI :=
  let u := onMongo (mongoIdentifier.Like field pattern) u in
  let u := onPostgres (postgresIdentifier.Like field pattern) u in
  u.

Definition In (field : string) (values : list Value) (u : UI) : UI :=
  let u := onMongo (mongoIdentifier.In field values) u in
  let u := onPostgres (postgresIdentifier.In field values) u in
  u.

Definition ToBSON (u : UI) : gmap string Value :=
  match mongoID u with
  | Some m => mongoIdentifier.ToBSON m
  | None => ∅
  end.

Definition ToMap (u : UI) : gmap string Value :=
  match postgresID u with
  | Some p => postgresIdentifier.ToMap p
  | None => ∅
  end.

Definition Has (field : string) (u : UI) : bool :=
  match mongoID u with
  | Some m => mongoIdentifier.Has field m
  | None =>
      match postgresID u with
      | Some p =>
          match postgresIdentifier.ToMap p !! field with
          | Some _ => true
          | None => false
          end
      | None => false
      end
  end.

Definition GetMongoIdentifier (u : UI) : option M := mongoID u.
Definition GetPostgresIdentifier (u : UI) : option P := postgresID u.

(** A builder call, and a chain of them applied left to right. *)
Inductive BuilderCall : Type :=
| CallEqual (field : string) (value : Value)
| CallGreaterThan (field : string) (value : Value)
| CallLessThan (field : string) (value : Value)
| CallBetween (field : string) (min max : Value)
| CallLike (field : string) (pattern : string)
| CallIn (field : string) (values : list Value).

Definition apply_call (c : BuilderCall) (u : UI) : UI :=
  match c with
  | CallEqual f v => Equal f v u
  | CallGreaterThan f v => GreaterThan f v u
  | CallLessThan f v => LessThan f v u
  | CallBetween f lo hi => Between f lo hi u
  | CallLike f p => Like f p u
  | CallIn f vs => In f vs u
  end.

Definition chain (calls : list BuilderCall) (u : UI) : UI :=
  fold_left (λ acc c, apply_call c acc) calls u.

(** The same call made on a native builder directly. *)
Definition mongoCall (c : BuilderCall) (m : M) : M :=
  match c with
  | CallEqual f v => mongoIdentifier.Equal f v m
  | CallGreaterThan f v => mongoIdentifier.GreaterThan f v m
  | CallLessThan f v => mongoIdentifier.LessThan f v m
  | CallBetween f lo hi => mongoIdentifier.Between f lo hi m
  | CallLike f p => mongoIdentifier.Like f p m
  | CallIn f vs => mongoIdentifier.In f vs m
  end.

Definition postgresCall (c : BuilderCall) (p : P) : P :=
  match c with
  | CallEqual f v => postgresIdentifier.Equal f v p
  | CallGreaterThan f v => postgresIdentifier.GreaterThan f v p
  | CallLessThan f v => postgresIdentifier.LessThan f v p
  | CallBetween f lo hi => postgresIdentifier.Between f lo hi p
  | CallLike f pat => postgresIdentifier.Like f pat p
  | CallIn f vs => postgresIdentifier.In f vs p
  end.

(** Exactly one of the two representations is populated. *)
Definition exactly_one_populated (u : UI) : bool :=
  match mongoID u, postgresID u with
  | Some _, None => true
  | None, Some _ => true
  | _, _ => false
  end.

End Methods.
End identifier.


(** ** A reference model of the native builders *)

Module predicates.

(** Modelled from the spec: the native filter builders behind
    [mongoIdentifier.New()] and [postgresIdentifier.NewIdentifier()], which
    belong to the two unit-of-work systems and are not among the sources.
    The spec's words: predicates are keyed by field name and accumulate;
    each builder call records or overwrites the predicate for
    (field, operator); different operators on one field both persist;
    [Has(field)] is true when any predicate references the field; the
    extraction returns the accumulated predicates as a mapping.  The
    accumulated predicates are kept as the mapping that is extracted:
    field name to a document from operator to operand. *)
Inductive Operator : Type :=
| OpEqual | OpGreaterThan | OpLessThan | OpBetween | OpLike | OpIn.

(** Modelled from the spec: the key under which an operator's predicate
    is kept in a field's document. *)
Definition operator_key (op : Operator) : string :=
  match op with
  | OpEqual => "$eq"
  | OpGreaterThan => "$gt"
  | OpLessThan => "$lt"
  | OpBetween => "$between"
  | OpLike => "$like"
  | OpIn => "$in"
  end.

(** Modelled from the spec: the builder state, the accumulated predicates. *)
Record Builder : Type := mkBuilder { accumulated : gmap string Value }.

(** Modelled from the spec: the predicates accumulated so far for a field. *)
Definition predicates_on (field : string) (m : gmap string Value)
  : gmap string Value :=
  match m !! field with
  | Some (VDoc d) => d
  | _ => ∅
  end.

(** Modelled from the spec: record or overwrite the predicate for
    (field, operator). *)
Definition record_predicate (field : string) (op : Operator) (operand : Value)
    (b : Builder) : Builder :=
  mkBuilder
    (<[field := VDoc (<[operator_key op := operand]>
                        (predicates_on field (accumulated b)))]>
       (accumulated b)).

(** Modelled from the spec: [Has(field)], true when a predicate references
    the field. *)
Definition references (field : string) (b : Builder) : bool :=
  match accumulated b !! field with
  | Some _ => true
  | None => false
  end.

(** Modelled from the spec: the six predicates, the extraction and [Has]
    of the Mongo builder. *)
#[global] Instance mongo_builder : mongoIdentifier.IIdentifier Builder := {|
  mongoIdentifier.New := mkBuilder ∅;
  mongoIdentifier.Equal f v := record_predicate f OpEqual v;
  mongoIdentifier.GreaterThan f v := record_predicate f OpGreaterThan v;
  mongoIdentifier.LessThan f v := record_predicate f OpLessThan v;
  mongoIdentifier.Between f lo hi := record_predicate f OpBetween (VSlice [lo; hi]);
  mongoIdentifier.Like f p := record_predicate f OpLike (VStr p);
  mongoIdentifier.In f vs := record_predicate f OpIn (VSlice vs);
  mongoIdentifier.ToBSON := accumulated;
  mongoIdentifier.Has := references
|}.

(** Modelled from the spec: the six predicates and the extraction of the
    Postgres builder. *)
#[global] Instance postgres_builder : postgresIdentifier.IIdentifier Builder := {|
  postgresIdentifier.NewIdentifier := mkBuilder ∅;
  postgresIdentifier.Equal f v := record_predicate f OpEqual v;
  postgresIdentifier.GreaterThan f v := record_predicate f OpGreaterThan v;
  postgresIdentifier.LessThan f v := record_predicate f OpLessThan v;
  postgresIdentifier.Between f lo hi := record_predicate f OpBetween (VSlice [lo; hi]);
  postgresIdentifier.Like f p := record_predicate f OpLike (VStr p);
  postgresIdentifier.In f vs := record_predicate f OpIn (VSlice vs);
  postgresIdentifier.ToMap := accumulated
|}.

(** An extraction contains the predicate (field, operator, operand). *)
Definition has_predicate (extraction : gmap string Value)
    (field : string) (op : Operator) (operand : Value) : Prop :=
  ∃ d, extraction !! field = Some (VDoc d) ∧ d !! operator_key op = Some operand.

(** The unified identifier over the reference builders. *)
Definition Unified : Type := identifier.UnifiedIdentifier Builder Builder.

(** Field, operator and operand of a builder call. *)
Definition call_field (c : identifier.BuilderCall) : string :=
  match c with
  | identifier.CallEqual f _ => f
  | identifier.CallGreaterThan f _ => f
  | identifier.CallLessThan f _ => f
  | identifier.CallBetween f _ _ => f
  | identifier.CallLike f _ => f
  | identifier.CallIn f _ => f
  end.

Definition call_operator (c : identifier.BuilderCall) : Operator :=
  match c with
  | identifier.CallEqual _ _ => OpEqual
  | identifier.CallGreaterThan _ _ => OpGreaterThan
  | identifier.CallLessThan _ _ => OpLessThan
  | identifier.CallBetween _ _ _ => OpBetween
  | identifier.CallLike _ _ => OpLike
  | identifier.CallIn _ _ => OpIn
  end.

Definition call_operand (c : identifier.BuilderCall) : Value :=
  match c with
  | identifier.CallEqual _ v => v
  | identifier.CallGreaterThan _ v => v
  | identifier.CallLessThan _ v => v
  | identifier.CallBetween _ lo hi => VSlice [lo; hi]
  | identifier.CallLike _ p => VStr p
  | identifier.CallIn _ vs => VSlice vs
  end.

End predicates.

(** ** pkg/types *)

Module types.

(** [type SortDirection string]: any string is a value of the type; the
    package declares two constants. *)
Abbreviation SortDirection := string.
Definition SortAsc : SortDirection := "ASC".
Definition SortDesc : SortDirection := "DESC".

(** [type SortMap map[string]SortDirection]: nil ([None]) or allocated. *)
Definition SortMap : Type := option (gmap string SortDirection).

Record QueryParams (T : Type) : Type := mkQueryParams {
  Filter : T;
  Limit : Z;
  Offset : Z;
  Sort : SortMap;
  Include : list string
}.
Arguments mkQueryParams {T} _ _ _ _ _.
Arguments Filter {T} _.
Arguments Limit {T} _.
Arguments Offset {T} _.
Arguments Sort {T} _.
Arguments Include {T} _.

(** A value of the interface type [Identifier]: the nil interface, a
    [*identifier.UnifiedIdentifier] (itself possibly a nil pointer), or a
    value of any other type that implements the interface, of which only
    the dynamic type's name is kept. *)
Inductive Identifier (M P : Type) : Type :=
| NilIdentifier
| UnifiedPointer (ptr : option (identifier.UnifiedIdentifier M P))
| OtherImplementation (dynamic_type : string).
Arguments NilIdentifier {M P}.
Arguments UnifiedPointer {M P} _.
Arguments OtherImplementation {M P} _.

Definition is_unified {M P : Type} (filter : Identifier M P) : bool :=
  match filter with
  | UnifiedPointer _ => true
  | _ => false
  end.

End types.

(** ** Calls, results and panics

    A facade method runs against the state [W] of the outside world (the
    store and the sessions behind the factory): it either returns a value
    or panics, and in both cases leaves a world behind. *)

Module runtime.

Inductive Panic : Type :=
| InterfaceConversion      (* a failed type assertion [x.(T)] *)
| NilPointerDereference.   (* a field read through a nil pointer *)

Inductive Result (W A : Type) : Type :=
| Returns (a : A) (w : W)
| Panics (p : Panic) (w : W).
Arguments Returns {W A} _ _.
Arguments Panics {W A} _ _.

Definition Op (W A : Type) : Type := W → Result W A.

Definition ret {W A : Type} (a : A) : Op W A := λ w, Returns a w.

Definition panic {W A : Type} (p : Panic) : Op W A := λ w, Panics p w.

Definition bind {W A B : Type} (m : Op W A) (k : A → Op W B) : Op W B :=
  λ w, match m w with
       | Returns a w' => k a w'
       | Panics p w' => Panics p w'
       end.

(** A method of an external collaborator: it returns and changes the world. *)
Definition call {W A : Type} (f : W → A * W) : Op W A :=
  λ w, let (a, w') := f w in Returns a w'.

(** The unchecked type assertion of [filter] to a pointer to
    [identifier.UnifiedIdentifier]. *)
Definition assertUnified {W M P : Type} (filter : types.Identifier M P)
  : Op W (option (identifier.UnifiedIdentifier M P)) :=
  match filter with
  | types.UnifiedPointer ptr => ret ptr
  | types.NilIdentifier => panic InterfaceConversion
  | types.OtherImplementation _ => panic InterfaceConversion
  end.

(** Reading the struct behind a pointer. *)
Definition deref {W A : Type} (ptr : option A) : Op W A :=
  match ptr with
  | Some a => ret a
  | None => panic NilPointerDereference
  end.

Definition panicked {W A : Type} (r : Result W A) : option Panic :=
  match r with
  | Returns _ _ => None
  | Panics p _ => Some p
  end.

Definition returned {W A : Type} (r : Result W A) : option A :=
  match r with
  | Returns a _ => Some a
  | Panics _ _ => None
  end.

Definition world_after {W A : Type} (r : Result W A) : W :=
  match r with
  | Returns _ w => w
  | Panics _ w => w
  end.

End runtime.

Notation "'let*' x ':=' m 'in' k" := (runtime.bind m (λ x, k))
  (at level 10, x name, m at level 100, k at level 200).

(** ** The unit-of-work collaborators (external interfaces)

    [mongoDomain]/[postgresDomain] and [mongoUOW]/[postgresUOW] have the
    same shape as far as the facades use them; one parameterised
    declaration serves both.  [N] is the native identifier interface
    (nil is [None]), [D] the native sort direction. *)

Module domain.

Class SortDirections (D : Type) : Type := {
  SortAsc : D;
  SortDesc : D
}.

Definition SortMap (D : Type) : Type := option (gmap string D).

(** What the switch in [convertSortMap] assigns for a direction: the two
    declared constants have a native counterpart, any other string has
    no case. *)
Definition counterpart {D : Type} `{!SortDirections D} (direction : string)
  : option D :=
  if decide (direction = "ASC") then Some SortAsc
  else if decide (direction = "DESC") then Some SortDesc
  else None.

Record QueryParams (T D : Type) : Type := mkQueryParams {
  Filter : T;
  Limit : Z;
  Offset : Z;
  Sort : SortMap D
}.
Arguments mkQueryParams {T D} _ _ _ _.
Arguments Filter {T D} _.
Arguments Limit {T D} _.
Arguments Offset {T D} _.
Arguments Sort {T D} _.

End domain.

Module persistence.

Record IUnitOfWork (Ctx ID N T D W : Type) : Type := mkUnitOfWork {
  FindOneById : Ctx → ID → W → (T * error) * W;
  FindOneByIdentifier : Ctx → option N → W → (T * error) * W;
  FindAll : Ctx → W → (list T * error) * W;
  FindAllWithPagination :
    Ctx → domain.QueryParams T D → W → (list T * Z * error) * W;
  Insert : Ctx → T → W → (T * error) * W;
  Update : Ctx → option N → T → W → (T * error) * W;
  Delete : Ctx → option N → W → error * W;
  BulkInsert : Ctx → list T → W → (list T * error) * W;
  BulkUpdate : Ctx → list T → W → (list T * error) * W;
  SoftDelete : Ctx → option N → W → (T * error) * W;
  HardDelete : Ctx → option N → W → (T * error) * W;
  BulkSoftDelete : Ctx → list (option N) → W → error * W;
  BulkHardDelete : Ctx → list (option N) → W → error * W;
  GetTrashed : Ctx → W → (list T * error) * W;
  GetTrashedWithPagination :
    Ctx → domain.QueryParams T D → W → (list T * Z * error) * W;
  Restore : Ctx → option N → W → (T * error) * W;
  RestoreAll : Ctx → W → error * W;
  BeginTransaction : Ctx → W → error * W;
  CommitTransaction : Ctx → W → error * W;
  RollbackTransaction : Ctx → W → error * W
}.

Record IUnitOfWorkFactory (Ctx ID N T D W : Type) : Type := mkFactory {
  CreateWithContext : Ctx → W → IUnitOfWork Ctx ID N T D W * W
}.

End persistence.

Arguments persistence.mkUnitOfWork {Ctx ID N T D W}.
Arguments persistence.FindOneById {Ctx ID N T D W} _.
Arguments persistence.FindOneByIdentifier {Ctx ID N T D W} _.
Arguments persistence.FindAll {Ctx ID N T D W} _.
Arguments persistence.FindAllWithPagination {Ctx ID N T D W} _.
Arguments persistence.Insert {Ctx ID N T D W} _.
Arguments persistence.Update {Ctx ID N T D W} _.
Arguments persistence.Delete {Ctx ID N T D W} _.
Arguments persistence.BulkInsert {Ctx ID N T D W} _.
Arguments persistence.BulkUpdate {Ctx ID N T D W} _.
Arguments persistence.SoftDelete {Ctx ID N T D W} _.
Arguments persistence.HardDelete {Ctx ID N T D W} _.
Arguments persistence.BulkSoftDelete {Ctx ID N T D W} _.
Arguments persistence.BulkHardDelete {Ctx ID N T D W} _.
Arguments persistence.GetTrashed {Ctx ID N T D W} _.
Arguments persistence.GetTrashedWithPagination {Ctx ID N T D W} _.
Arguments persistence.Restore {Ctx ID N T D W} _.
Arguments persistence.RestoreAll {Ctx ID N T D W} _.
Arguments persistence.BeginTransaction {Ctx ID N T D W} _.
Arguments persistence.CommitTransaction {Ctx ID N T D W} _.
Arguments persistence.RollbackTransaction {Ctx ID N T D W} _.
Arguments persistence.mkFactory {Ctx ID N T D W}.
Arguments persistence.CreateWithContext {Ctx ID N T D W} _.

(** ** pkg/mongo *)

Module mongo.
Import runtime.

Section BaseRepository.
Context {Ctx ID M P T D W : Type} `{!domain.SortDirections D}.

Local Abbreviation UnitOfWork := (persistence.IUnitOfWork Ctx ID M T D W).
Local Abbreviation Factory := (persistence.IUnitOfWorkFactory Ctx ID M T D W).
Local Abbreviation Filter := (types.Identifier M P).

Record BaseRepository : Type := mkBaseRepository {
  factory : Factory
}.

Definition NewBaseRepository (factory : Factory) : BaseRepository :=
  mkBaseRepository factory.

(** [unifiedFilter.GetMongoIdentifier()] on the asserted pointer. *)
Definition nativeOf (unifiedFilter : option (identifier.UnifiedIdentifier M P))
  : Op W (option M) :=
  let* u := deref unifiedFilter in
  ret (identifier.GetMongoIdentifier u).

(** The loop that fills [mongoFilters] from [filters], element by element. *)
Fixpoint nativeFilters (filters : list Filter) : Op W (list (option M)) :=
  match filters with
  | [] => ret []
  | filter :: rest =>
      let* unifiedFilter := assertUnified filter in
      let* native := nativeOf unifiedFilter in
      let* natives := nativeFilters rest in
      ret (native :: natives)
  end.

Definition convertSortMap (sort : types.SortMap) : domain.SortMap D :=
  match sort with
  | None => None
  | Some entries =>
      Some (map_fold
              (λ field direction mongoSort,
                 if decide (direction = types.SortAsc)
                 then <[field := domain.SortAsc]> mongoSort
                 else if decide (direction = types.SortDesc)
                 then <[field := domain.SortDesc]> mongoSort
                 else mongoSort)
              ∅ entries)
  end.

Definition FindOneById (r : BaseRepository) (ctx : Ctx) (id : ID)
  : Op W (T * error) :=
  let* uow := call (persistence.CreateWithContext (factory r) ctx) in
  call (persistence.FindOneById uow ctx id).

Definition FindOne (r : BaseRepository) (ctx : Ctx) (filter : Filter)
  : Op W (T * error) :=
  let* uow := call (persistence.CreateWithContext (factory r) ctx) in
  let* unifiedFilter := assertUnified filter in
  let* native := nativeOf unifiedFilter in
  call (persistence.FindOneByIdentifier uow ctx native).

Definition FindAll (r : BaseRepository) (ctx : Ctx) (filter : Filter)
  : Op W (list T * error) :=
  let* uow := call (persistence.CreateWithContext (factory r) ctx) in
  call (persistence.FindAll uow ctx).

(** [int64(count)] widens and keeps the value. *)
Definition FindAllWithPagination (r : BaseRepository) (ctx : Ctx)
    (params : types.QueryParams T) : Op W (list T * Z * error) :=
  let* uow := call (persistence.CreateWithContext (factory r) ctx) in
  let queryParams :=
    domain.mkQueryParams (types.Filter params) (types.Limit params)
      (types.Offset params) (convertSortMap (types.Sort params)) in
  let* res := call (persistence.FindAllWithPagination uow ctx queryParams) in
  let '(entities, count, err) := res in
  ret (entities, count, err).

Definition Insert (r : BaseRepository) (ctx : Ctx) (entity : T)
  : Op W (T * error) :=
  let* uow := call (persistence.CreateWithContext (factory r) ctx) in
  call (persistence.Insert uow ctx entity).

Definition Update (r : BaseRepository) (ctx : Ctx) (filter : Filter)
    (entity : T) : Op W (T * error) :=
  let* uow := call (persistence.CreateWithContext (factory r) ctx) in
  let* unifiedFilter := assertUnified filter in
  let* native := nativeOf unifiedFilter in
  call (persistence.Update uow ctx native entity).

Definition Delete (r : BaseRepository) (ctx : Ctx) (filter : Filter)
  : Op W error :=
  let* uow := call (persistence.CreateWithContext (factory r) ctx) in
  let* unifiedFilter := assertUnified filter in
  let* native := nativeOf unifiedFilter in
  call (persistence.Delete uow ctx native).

Definition BulkInsert (r : BaseRepository) (ctx : Ctx) (entities : list T)
  : Op W (list T * error) :=
  let* uow := call (persistence.CreateWithContext (factory r) ctx) in
  call (persistence.BulkInsert uow ctx entities).

Definition BulkUpdate (r : BaseRepository) (ctx : Ctx) (entities : list T)
  : Op W (list T * error) :=
  let* uow := call (persistence.CreateWithContext (factory r) ctx) in
  call (persistence.BulkUpdate uow ctx entities).

Definition BulkDelete (r : BaseRepository) (ctx : Ctx) (filters : list Filter)
  : Op W error :=
  let* uow := call (persistence.CreateWithContext (factory r) ctx) in
  let* mongoFilters := nativeFilters filters in
  call (persistence.BulkHardDelete uow ctx mongoFilters).

Definition SoftDelete (r : BaseRepository) (ctx : Ctx) (filter : Filter)
  : Op W (T * error) :=
  let* uow := call (persistence.CreateWithContext (factory r) ctx) in
  let* unifiedFilter := assertUnified filter in
  let* native := nativeOf unifiedFilter in
  call (persistence.SoftDelete uow ctx native).

Definition HardDelete (r : BaseRepository) (ctx : Ctx) (filter : Filter)
  : Op W (T * error) :=
  let* uow := call (persistence.CreateWithContext (factory r) ctx) in
  let* unifiedFilter := assertUnified filter in
  let* native := nativeOf unifiedFilter in
  call (persistence.HardDelete uow ctx native).

Definition BulkSoftDelete (r : BaseRepository) (ctx : Ctx)
    (filters : list Filter) : Op W error :=
  let* uow := call (persistence.CreateWithContext (factory r) ctx) in
  let* mongoFilters := nativeFilters filters in
  call (persistence.BulkSoftDelete uow ctx mongoFilters).

Definition BulkHardDelete (r : BaseRepository) (ctx : Ctx)
    (filters : list Filter) : Op W error :=
  let* uow := call (persistence.CreateWithContext (factory r) ctx) in
  let* mongoFilters := nativeFilters filters in
  call (persistence.BulkHardDelete uow ctx mongoFilters).

Definition GetTrashed (r : BaseRepository) (ctx : Ctx)
  : Op W (list T * error) :=
  let* uow := call (persistence.CreateWithContext (factory r) ctx) in
  call (persistence.GetTrashed uow ctx).

Definition GetTrashedWithPagination (r : BaseRepository) (ctx : Ctx)
    (params : types.QueryParams T) : Op W (list T * Z * error) :=
  let* uow := call (persistence.CreateWithContext (factory r) ctx) in
  let queryParams :=
    domain.mkQueryParams (types.Filter params) (types.Limit params)
      (types.Offset params) (convertSortMap (types.Sort params)) in
  let* res := call (persistence.GetTrashedWithPagination uow ctx queryParams) in
  let '(entities, count, err) := res in
  ret (entities, count, err).

Definition Restore (r : BaseRepository) (ctx : Ctx) (filter : Filter)
  : Op W (T * error) :=
  let* uow := call (persistence.CreateWithContext (factory r) ctx) in
  let* unifiedFilter := assertUnified filter in
  let* native := nativeOf unifiedFilter in
  call (persistence.Restore uow ctx native).

Definition RestoreAll (r : BaseRepository) (ctx : Ctx) : Op W error :=
  let* uow := call (persistence.CreateWithContext (factory r) ctx) in
  call (persistence.RestoreAll uow ctx).

Definition BeginTransaction (r : BaseRepository) (ctx : Ctx) : Op W error :=
  let* uow := call (persistence.CreateWithContext (factory r) ctx) in
  call (persistence.BeginTransaction uow ctx).

Definition CommitTransaction (r : BaseRepository) (ctx : Ctx) : Op W error :=
  let* uow := call (persistence.CreateWithContext (factory r) ctx) in
  call (persistence.CommitTransaction uow ctx).

Definition RollbackTransaction (r : BaseRepository) (ctx : Ctx) : Op W error :=
  let* uow := call (persistence.CreateWithContext (factory r) ctx) in
  let* _ := call (persistence.RollbackTransaction uow ctx) in
  ret None.

End BaseRepository.
End mongo.

(** ** pkg/postgres *)

Module postgres.
Import runtime.

Section BaseRepository.
Context {Ctx ID M P T D W : Type} `{!domain.SortDirections D}.

Local Abbreviation UnitOfWork := (persistence.IUnitOfWork Ctx ID P T D W).
Local Abbreviation Factory := (persistence.IUnitOfWorkFactory Ctx ID P T D W).
Local Abbreviation Filter := (types.Identifier M P).

Record BaseRepository : Type := mkBaseRepository {
  factory : Factory
}.

Definition NewBaseRepository (factory : Factory) : BaseRepository :=
  mkBaseRepository factory.

(** [unifiedFilter.GetPostgresIdentifier()] on the asserted pointer. *)
Definition nativeOf (unifiedFilter : option (identifier.UnifiedIdentifier M P))
  : Op W (option P) :=
  let* u := deref unifiedFilter in
  ret (identifier.GetPostgresIdentifier u).

(** The loop that fills [postgresFilters] from [filters], element by element. *)
Fixpoint nativeFilters (filters : list Filter) : Op W (list (option P)) :=
  match filters with
  | [] => ret []
  | filter :: rest =>
      let* unifiedFilter := assertUnified filter in
      let* native := nativeOf unifiedFilter in
      let* natives := nativeFilters rest in
      ret (native :: natives)
  end.

Definition convertSortMap (sort : types.SortMap) : domain.SortMap D :=
  match sort with
  | None => None
  | Some entries =>
      Some (map_fold
              (λ field direction postgresSort,
                 if decide (direction = types.SortAsc)
                 then <[field := domain.SortAsc]> postgresSort
                 else if decide (direction = types.SortDesc)
                 then <[field := domain.SortDesc]> postgresSort
                 else postgresSort)
              ∅ entries)
  end.

Definition FindOneById (r : BaseRepository) (ctx : Ctx) (id : ID)
  : Op W (T * error) :=
  let* uow := call (persistence.CreateWithContext (factory r) ctx) in
  call (persistence.FindOneById uow ctx id).

Definition FindOne (r : BaseRepository) (ctx : Ctx) (filter : Filter)
  : Op W (T * error) :=
  let* uow := call (persistence.CreateWithContext (factory r) ctx) in
  let* unifiedFilter := assertUnified filter in
  let* native := nativeOf unifiedFilter in
  call (persistence.FindOneByIdentifier uow ctx native).

Definition FindAll (r : BaseRepository) (ctx : Ctx) (filter : Filter)
  : Op W (list T * error) :=
  let* uow := call (persistence.CreateWithContext (factory r) ctx) in
  call (persistence.FindAll uow ctx).

(** [int64(count)] widens and keeps the value. *)
Definition FindAllWithPagination (r : BaseRepository) (ctx : Ctx)
    (params : types.QueryParams T) : Op W (list T * Z * error) :=
  let* uow := call (persistence.CreateWithContext (factory r) ctx) in
  let queryParams :=
    domain.mkQueryParams (types.Filter params) (types.Limit params)
      (types.Offset params) (convertSortMap (types.Sort params)) in
  let* res := call (persistence.FindAllWithPagination uow ctx queryParams) in
  let '(entities, count, err) := res in
  ret (entities, count, err).

Definition Insert (r : BaseRepository) (ctx : Ctx) (entity : T)
  : Op W (T * error) :=
  let* uow := call (persistence.CreateWithContext (factory r) ctx) in
  call (persistence.Insert uow ctx entity).

Definition Update (r : BaseRepository) (ctx : Ctx) (filter : Filter)
    (entity : T) : Op W (T * error) :=
  let* uow := call (persistence.CreateWithContext (factory r) ctx) in
  let* unifiedFilter := assertUnified filter in
  let* native := nativeOf unifiedFilter in
  call (persistence.Update uow ctx native entity).

Definition Delete (r : BaseRepository) (ctx : Ctx) (filter : Filter)
  : Op W error :=
  let* uow := call (persistence.CreateWithContext (factory r) ctx) in
  let* unifiedFilter := assertUnified filter in
  let* native := nativeOf unifiedFilter in
  call (persistence.Delete uow ctx native).

Definition BulkInsert (r : BaseRepository) (ctx : Ctx) (entities : list T)
  : Op W (list T * error) :=
  let* uow := call (persistence.CreateWithContext (factory r) ctx) in
  call (persistence.BulkInsert uow ctx entities).

Definition BulkUpdate (r : BaseRepository) (ctx : Ctx) (entities : list T)
  : Op W (list T * error) :=
  let* uow := call (persistence.CreateWithContext (factory r) ctx) in
  call (persistence.BulkUpdate uow ctx entities).

Definition BulkDelete (r : BaseRepository) (ctx : Ctx) (filters : list Filter)
  : Op W error :=
  let* uow := call (persistence.CreateWithContext (factory r) ctx) in
  let* postgresFilters := nativeFilters filters in
  call (persistence.BulkHardDelete uow ctx postgresFilters).

Definition SoftDelete (r : BaseRepository) (ctx : Ctx) (filter : Filter)
  : Op W (T * error) :=
  let* uow := call (persistence.CreateWithContext (factory r) ctx) in
  let* unifiedFilter := assertUnified filter in
  let* native := nativeOf unifiedFilter in
  call (persistence.SoftDelete uow ctx native).

Definition HardDelete (r : BaseRepository) (ctx : Ctx) (filter : Filter)
  : Op W (T * error) :=
  let* uow := call (persistence.CreateWithContext (factory r) ctx) in
  let* unifiedFilter := assertUnified filter in
  let* native := nativeOf unifiedFilter in
  call (persistence.HardDelete uow ctx native).

Definition BulkSoftDelete (r : BaseRepository) (ctx : Ctx)
    (filters : list Filter) : Op W error :=
  let* uow := call (persistence.CreateWithContext (factory r) ctx) in
  let* postgresFilters := nativeFilters filters in
  call (persistence.BulkSoftDelete uow ctx postgresFilters).

Definition BulkHardDelete (r : BaseRepository) (ctx : Ctx)
    (filters : list Filter) : Op W error :=
  let* uow := call (persistence.CreateWithContext (factory r) ctx) in
  let* postgresFilters := nativeFilters filters in
  call (persistence.BulkHardDelete uow ctx postgresFilters).

Definition GetTrashed (r : BaseRepository) (ctx : Ctx)
  : Op W (list T * error) :=
  let* uow := call (persistence.CreateWithContext (factory r) ctx) in
  call (persistence.GetTrashed uow ctx).

Definition GetTrashedWithPagination (r : BaseRepository) (ctx : Ctx)
    (params : types.QueryParams T) : Op W (list T * Z * error) :=
  let* uow := call (persistence.CreateWithContext (factory r) ctx) in
  let queryParams :=
    domain.mkQueryParams (types.Filter params) (types.Limit params)
      (types.Offset params) (convertSortMap (types.Sort params)) in
  let* res := call (persistence.GetTrashedWithPagination uow ctx queryParams) in
  let '(entities, count, err) := res in
  ret (entities, count, err).

Definition Restore (r : BaseRepository) (ctx : Ctx) (filter : Filter)
  : Op W (T * error) :=
  let* uow := call (persistence.CreateWithContext (factory r) ctx) in
  let* unifiedFilter := assertUnified filter in
  let* native := nativeOf unifiedFilter in
  call (persistence.Restore uow ctx native).

Definition RestoreAll (r : BaseRepository) (ctx : Ctx) : Op W error :=
  let* uow := call (persistence.CreateWithContext (factory r) ctx) in
  call (persistence.RestoreAll uow ctx).

Definition BeginTransaction (r : BaseRepository) (ctx : Ctx) : Op W error :=
  let* uow := call (persistence.CreateWithContext (factory r) ctx) in
  call (persistence.BeginTransaction uow ctx).

Definition CommitTransaction (r : BaseRepository) (ctx : Ctx) : Op W error :=
  let* uow := call (persistence.CreateWithContext (factory r) ctx) in
  call (persistence.CommitTransaction uow ctx).

Definition RollbackTransaction (r : BaseRepository) (ctx : Ctx) : Op W error :=
  let* uow := call (persistence.CreateWithContext (factory r) ctx) in
  let* _ := call (persistence.RollbackTransaction uow ctx) in
  ret None.

End BaseRepository.
End postgres.

(** ** The reading of the bulk operations as their singular counterpart
    applied per element

    This definition follows the spec's sentence, not the code: the
    singular operation is run on each element in turn and the first error
    ends the run.  It is what [BulkDelete] is compared with. *)

Module reading.
Import runtime.

Fixpoint perElement {W A : Type} (singular : A → Op W error) (elements : list A)
  : Op W error :=
  match elements with
  | [] => ret None
  | x :: rest =>
      let* err := singular x in
      match err with
      | Some e => ret (Some e)
      | None => perElement singular rest
      end
  end.

End reading.

(** ** A recording session

    A concrete collaborator for evaluating the facades: every session
    method appends its name and the native filters it received to the
    world, and answers with fixed rows and a fixed error. *)

Module fixture.

Inductive Ctx : Type := Background.

Record User : Type := mkUser {
  ID : Z;
  Name : string;
  Active : bool
}.

Definition alice : User := mkUser 1 "alice" true.
Definition bob : User := mkUser 2 "bob" false.
Definition nobody : User := mkUser 0 "" false.

#[global] Instance directions : domain.SortDirections Z := {|
  domain.SortAsc := 1%Z;
  domain.SortDesc := (-1)%Z
|}.

Record Recorded : Type := mkRecorded {
  method : string;
  natives : list (option predicates.Builder)
}.

Definition World : Type := list Recorded.

Definition recording {A : Type} (method : string)
    (natives : list (option predicates.Builder)) (answer : A)
  : World → A * World :=
  λ w, (answer, w ++ [mkRecorded method natives]).

Definition first_row (rows : list User) : User :=
  match rows with
  | [] => nobody
  | row :: _ => row
  end.

Definition session (rows : list User) (err : error)
  : persistence.IUnitOfWork Ctx Z predicates.Builder User Z World := {|
  persistence.FindOneById _ _ := recording "FindOneById" [] (first_row rows, err);
  persistence.FindOneByIdentifier _ n :=
    recording "FindOneByIdentifier" [n] (first_row rows, err);
  persistence.FindAll _ := recording "FindAll" [] (rows, err);
  persistence.FindAllWithPagination _ q :=
    recording "FindAllWithPagination" [] (rows, Z.of_nat (length rows), err);
  persistence.Insert _ e := recording "Insert" [] (e, err);
  persistence.Update _ n e := recording "Update" [n] (e, err);
  persistence.Delete _ n := recording "Delete" [n] err;
  persistence.BulkInsert _ es := recording "BulkInsert" [] (es, err);
  persistence.BulkUpdate _ es := recording "BulkUpdate" [] (es, err);
  persistence.SoftDelete _ n := recording "SoftDelete" [n] (first_row rows, err);
  persistence.HardDelete _ n := recording "HardDelete" [n] (first_row rows, err);
  persistence.BulkSoftDelete _ ns := recording "BulkSoftDelete" ns err;
  persistence.BulkHardDelete _ ns := recording "BulkHardDelete" ns err;
  persistence.GetTrashed _ := recording "GetTrashed" [] (rows, err);
  persistence.GetTrashedWithPagination _ q :=
    recording "GetTrashedWithPagination" [] (rows, Z.of_nat (length rows), err);
  persistence.Restore _ n := recording "Restore" [n] (first_row rows, err);
  persistence.RestoreAll _ := recording "RestoreAll" [] err;
  persistence.BeginTransaction _ := recording "BeginTransaction" [] err;
  persistence.CommitTransaction _ := recording "CommitTransaction" [] err;
  persistence.RollbackTransaction _ := recording "RollbackTransaction" [] err
|}.

Definition sessions (rows : list User) (err : error)
  : persistence.IUnitOfWorkFactory Ctx Z predicates.Builder User Z World := {|
  persistence.CreateWithContext _ w := (session rows err, w)
|}.

Definition Filter : Type := types.Identifier predicates.Builder predicates.Builder.

Definition mongoRepo (rows : list User) (err : error)
  : @mongo.BaseRepository Ctx Z predicates.Builder User Z World :=
  mongo.NewBaseRepository (sessions rows err).

Definition postgresRepo (rows : list User) (err : error)
  : @postgres.BaseRepository Ctx Z predicates.Builder User Z World :=
  postgres.NewBaseRepository (sessions rows err).

(** [identifier.NewMongoIdentifier().Equal("active", true)], as
    examples/usage.go builds it, and its PostgreSQL twin. *)
Definition activeMongo : Filter :=
  types.UnifiedPointer
    (Some (identifier.Equal "active" (VBool true) identifier.NewMongoIdentifier)).

Definition activePostgres : Filter :=
  types.UnifiedPointer
    (Some (identifier.Equal "active" (VBool true) identifier.NewPostgresIdentifier)).

End fixture.

(** ** Filters as the facades meet them *)

Module filters.

(** The interface value a caller holds after building an identifier: a
    pointer to the struct. *)
Definition pointerTo {M P : Type} (u : identifier.UnifiedIdentifier M P)
  : types.Identifier M P :=
  types.UnifiedPointer (Some u).

(** The panic a facade raises on a filter, if any: the type assertion
    fails on the nil interface and on any other type, the field read
    fails on a nil pointer. *)
Definition offence {M P : Type} (filter : types.Identifier M P)
  : option runtime.Panic :=
  match filter with
  | types.UnifiedPointer (Some _) => None
  | types.UnifiedPointer None => Some runtime.NilPointerDereference
  | types.NilIdentifier => Some runtime.InterfaceConversion
  | types.OtherImplementation _ => Some runtime.InterfaceConversion
  end.

(** The offence of the first filter of a list that has one. *)
Fixpoint first_offence {M P : Type} (filters : list (types.Identifier M P))
  : option runtime.Panic :=
  match filters with
  | [] => None
  | filter :: rest =>
      match offence filter with
      | Some p => Some p
      | None => first_offence rest
      end
  end.

End filters.

(** ** Identifiers behind pointers

    The builder methods have pointer receivers: they assign to the fields
    of the struct the pointer leads to and return that pointer.  Here the
    structs live in a store keyed by address, and two interface values
    may hold the same address. *)

Module shared.
Section Store.
Context {M P : Type}.
Context `{!mongoIdentifier.IIdentifier M} `{!postgresIdentifier.IIdentifier P}.

Local Abbreviation Store := (gmap positive (identifier.UnifiedIdentifier M P)).

(** [&UnifiedIdentifier{...}]: a struct at an address not in use. *)
Definition allocate (u : identifier.UnifiedIdentifier M P) (h : Store)
  : positive * Store :=
  let address := fresh (dom h) in
  (address, <[address := u]> h).

Definition NewMongoIdentifier (h : Store) : positive * Store :=
  allocate identifier.NewMongoIdentifier h.

Definition NewPostgresIdentifier (h : Store) : positive * Store :=
  allocate identifier.NewPostgresIdentifier h.

(** A method that updates the receiver's fields and ends in [return u]. *)
Definition updateAndReturn
    (update : identifier.UnifiedIdentifier M P → identifier.UnifiedIdentifier M P)
    (u : positive) (h : Store) : positive * Store :=
  (u, alter update u h).

Definition Equal (field : string) (value : Value) :=
  updateAndReturn (identifier.Equal field value).
Definition GreaterThan (field : string) (value : Value) :=
  updateAndReturn (identifier.GreaterThan field value).
Definition LessThan (field : string) (value : Value) :=
  updateAndReturn (identifier.LessThan field value).
Definition Between (field : string) (min max : Value) :=
  updateAndReturn (identifier.Between field min max).
Definition Like (field : string) (pattern : string) :=
  updateAndReturn (identifier.Like field pattern).
Definition In (field : string) (values : list Value) :=
  updateAndReturn (identifier.In field values).

Definition callAt (c : identifier.BuilderCall) :=
  updateAndReturn (identifier.apply_call c).

(** A fluent chain [u.A(..).B(..)...]: each call is made on the pointer
    the previous one returned. *)
Definition chainAt (calls : list identifier.BuilderCall) (u : positive) (h : Store)
  : positive * Store :=
  fold_left (λ acc c, callAt c acc.1 acc.2) calls (u, h).

(** The interface value for an address, as a facade receives it. *)
Definition filterAt (u : positive) (h : Store) : types.Identifier M P :=
  types.UnifiedPointer (h !! u).

End Store.
End shared.

(** ** pkg/interfaces

    [MongoBaseRepository[T]] and [PostgresBaseRepository[T]] list the same
    methods and differ in the identity type [ID] only. *)

Module interfaces.

Record BaseRepository (Ctx ID M P T W : Type) : Type := mkRepository {
  FindOneById : Ctx → ID → runtime.Op W (T * error);
  FindOne : Ctx → types.Identifier M P → runtime.Op W (T * error);
  FindAll : Ctx → types.Identifier M P → runtime.Op W (list T * error);
  FindAllWithPagination :
    Ctx → types.QueryParams T → runtime.Op W (list T * Z * error);
  Insert : Ctx → T → runtime.Op W (T * error);
  Update : Ctx → types.Identifier M P → T → runtime.Op W (T * error);
  Delete : Ctx → types.Identifier M P → runtime.Op W error;
  BulkInsert : Ctx → list T → runtime.Op W (list T * error);
  BulkUpdate : Ctx → list T → runtime.Op W (list T * error);
  BulkDelete : Ctx → list (types.Identifier M P) → runtime.Op W error;
  SoftDelete : Ctx → types.Identifier M P → runtime.Op W (T * error);
  HardDelete : Ctx → types.Identifier M P → runtime.Op W (T * error);
  BulkSoftDelete : Ctx → list (types.Identifier M P) → runtime.Op W error;
  BulkHardDelete : Ctx → list (types.Identifier M P) → runtime.Op W error;
  GetTrashed : Ctx → runtime.Op W (list T * error);
  GetTrashedWithPagination :
    Ctx → types.QueryParams T → runtime.Op W (list T * Z * error);
  Restore : Ctx → types.Identifier M P → runtime.Op W (T * error);
  RestoreAll : Ctx → runtime.Op W error;
  BeginTransaction : Ctx → runtime.Op W error;
  CommitTransaction : Ctx → runtime.Op W error;
  RollbackTransaction : Ctx → runtime.Op W error
}.

End interfaces.

Arguments interfaces.mkRepository {Ctx ID M P T W}.
Arguments interfaces.FindOneById {Ctx ID M P T W} _.
Arguments interfaces.FindOne {Ctx ID M P T W} _.
Arguments interfaces.FindAll {Ctx ID M P T W} _.
Arguments interfaces.FindAllWithPagination {Ctx ID M P T W} _.
Arguments interfaces.Insert {Ctx ID M P T W} _.
Arguments interfaces.Update {Ctx ID M P T W} _.
Arguments interfaces.Delete {Ctx ID M P T W} _.
Arguments interfaces.BulkInsert {Ctx ID M P T W} _.
Arguments interfaces.BulkUpdate {Ctx ID M P T W} _.
Arguments interfaces.BulkDelete {Ctx ID M P T W} _.
Arguments interfaces.SoftDelete {Ctx ID M P T W} _.
Arguments interfaces.HardDelete {Ctx ID M P T W} _.
Arguments interfaces.BulkSoftDelete {Ctx ID M P T W} _.
Arguments interfaces.BulkHardDelete {Ctx ID M P T W} _.
Arguments interfaces.GetTrashed {Ctx ID M P T W} _.
Arguments interfaces.GetTrashedWithPagination {Ctx ID M P T W} _.
Arguments interfaces.Restore {Ctx ID M P T W} _.
Arguments interfaces.RestoreAll {Ctx ID M P T W} _.
Arguments interfaces.BeginTransaction {Ctx ID M P T W} _.
Arguments interfaces.CommitTransaction {Ctx ID M P T W} _.
Arguments interfaces.RollbackTransaction {Ctx ID M P T W} _.

(** The method sets of the two facade types, as values of the interface
    ([NewBaseRepository] returns its struct as the interface). *)

Module methods.
Section MethodSets.
Context {Ctx ID M P T D W : Type} `{!domain.SortDirections D}.

Definition ofMongo (r : @mongo.BaseRepository Ctx ID M T D W)
  : interfaces.BaseRepository Ctx ID M P T W := {|
  interfaces.FindOneById := mongo.FindOneById r;
  interfaces.FindOne := mongo.FindOne r;
  interfaces.FindAll := mongo.FindAll r;
  interfaces.FindAllWithPagination := mongo.FindAllWithPagination r;
  interfaces.Insert := mongo.Insert r;
  interfaces.Update := mongo.Update r;
  interfaces.Delete := mongo.Delete r;
  interfaces.BulkInsert := mongo.BulkInsert r;
  interfaces.BulkUpdate := mongo.BulkUpdate r;
  interfaces.BulkDelete := mongo.BulkDelete r;
  interfaces.SoftDelete := mongo.SoftDelete r;
  interfaces.HardDelete := mongo.HardDelete r;
  interfaces.BulkSoftDelete := mongo.BulkSoftDelete r;
  interfaces.BulkHardDelete := mongo.BulkHardDelete r;
  interfaces.GetTrashed := mongo.GetTrashed r;
  interfaces.GetTrashedWithPagination := mongo.GetTrashedWithPagination r;
  interfaces.Restore := mongo.Restore r;
  interfaces.RestoreAll := mongo.RestoreAll r;
  interfaces.BeginTransaction := mongo.BeginTransaction r;
  interfaces.CommitTransaction := mongo.CommitTransaction r;
  interfaces.RollbackTransaction := mongo.RollbackTransaction r
|}.

Definition ofPostgres (r : @postgres.BaseRepository Ctx ID P T D W)
  : interfaces.BaseRepository Ctx ID M P T W := {|
  interfaces.FindOneById := postgres.FindOneById r;
  interfaces.FindOne := postgres.FindOne r;
  interfaces.FindAll := postgres.FindAll r;
  interfaces.FindAllWithPagination := postgres.FindAllWithPagination r;
  interfaces.Insert := postgres.Insert r;
  interfaces.Update := postgres.Update r;
  interfaces.Delete := postgres.Delete r;
  interfaces.BulkInsert := postgres.BulkInsert r;
  interfaces.BulkUpdate := postgres.BulkUpdate r;
  interfaces.BulkDelete := postgres.BulkDelete r;
  interfaces.SoftDelete := postgres.SoftDelete r;
  interfaces.HardDelete := postgres.HardDelete r;
  interfaces.BulkSoftDelete := postgres.BulkSoftDelete r;
  interfaces.BulkHardDelete := postgres.BulkHardDelete r;
  interfaces.GetTrashed := postgres.GetTrashed r;
  interfaces.GetTrashedWithPagination := postgres.GetTrashedWithPagination r;
  interfaces.Restore := postgres.Restore r;
  interfaces.RestoreAll := postgres.RestoreAll r;
  interfaces.BeginTransaction := postgres.BeginTransaction r;
  interfaces.CommitTransaction := postgres.CommitTransaction r;
  interfaces.RollbackTransaction := postgres.RollbackTransaction r
|}.

End MethodSets.
End methods.

(** ** pkg/factory

    [mongoFactory.NewConfig], [mongoFactory.NewFactory] and their
    PostgreSQL counterparts belong to the unit-of-work systems; they are
    parameters.  A constructor's results are the pair Go returns; a
    factory it returns without an error is a factory, not nil. *)

Module factory.
Import runtime.

Module MongoConfig.
Record t (C : Type) : Type := mk { Config : option C }.
Arguments mk {C} _.
Arguments Config {C} _.
End MongoConfig.

Module PostgresConfig.
Record t (C : Type) : Type := mk { Config : option C }.
Arguments mk {C} _.
Arguments Config {C} _.
End PostgresConfig.

Section Constructors.
Context {Ctx ID M P T D W CM CP : Type} `{!domain.SortDirections D}.

Definition NewMongoConfig (NewConfig : option CM) : option (MongoConfig.t CM) :=
  Some (MongoConfig.mk NewConfig).

Definition NewPostgresConfig (NewConfig : option CP)
  : option (PostgresConfig.t CP) :=
  Some (PostgresConfig.mk NewConfig).

Definition NewMongoBaseRepository
    (NewFactory :
       option CM → W → (persistence.IUnitOfWorkFactory Ctx ID M T D W * error) * W)
    (config : option (MongoConfig.t CM))
  : Op W (option (interfaces.BaseRepository Ctx ID M P T W) * error) :=
  let* cfg := deref config in
  let* made := call (NewFactory (MongoConfig.Config cfg)) in
  let '(factory, err) := made in
  match err with
  | Some e => ret (None, Some e)
  | None => ret (Some (methods.ofMongo (mongo.NewBaseRepository factory)), None)
  end.

Definition NewPostgresBaseRepository
    (NewUnitOfWorkFactory :
       option CP → W → persistence.IUnitOfWorkFactory Ctx ID P T D W * W)
    (config : option (PostgresConfig.t CP))
  : Op W (option (interfaces.BaseRepository Ctx ID M P T W) * error) :=
  let* cfg := deref config in
  let* factory := call (NewUnitOfWorkFactory (PostgresConfig.Config cfg)) in
  ret (Some (methods.ofPostgres (postgres.NewBaseRepository factory)), None).

End Constructors.
End factory.

(** ** examples/usage.go

    The identity, time and tombstone types come from the drivers; their
    zero values are parameters.  A struct literal leaves the fields it
    does not name at their zero value. *)

Module usage.
Import runtime.

Module MongoUser.
Record t (ObjectID Time : Type) : Type := mk {
  ID : ObjectID;
  Name : string;
  Email : string;
  Slug : string;
  Age : Z;
  Active : bool;
  CreatedAt : Time;
  UpdatedAt : Time;
  DeletedAt : option Time
}.
Arguments mk {ObjectID Time}.
Arguments ID {ObjectID Time} _.
Arguments Name {ObjectID Time} _.
Arguments Email {ObjectID Time} _.
Arguments Slug {ObjectID Time} _.
Arguments Age {ObjectID Time} _.
Arguments Active {ObjectID Time} _.
Arguments CreatedAt {ObjectID Time} _.
Arguments UpdatedAt {ObjectID Time} _.
Arguments DeletedAt {ObjectID Time} _.
End MongoUser.

Module PostgresUser.
Record t (Time Tombstone : Type) : Type := mk {
  ID : Z;
  Name : string;
  Email : string;
  Slug : string;
  Age : Z;
  Active : bool;
  CreatedAt : Time;
  UpdatedAt : Time;
  DeletedAt : Tombstone
}.
Arguments mk {Time Tombstone}.
Arguments ID {Time Tombstone} _.
Arguments Name {Time Tombstone} _.
Arguments Email {Time Tombstone} _.
Arguments Slug {Time Tombstone} _.
Arguments Age {Time Tombstone} _.
Arguments Active {Time Tombstone} _.
Arguments CreatedAt {Time Tombstone} _.
Arguments UpdatedAt {Time Tombstone} _.
Arguments DeletedAt {Time Tombstone} _.
End PostgresUser.

(** [MongoUserRepository] and its methods. *)
Module MongoUserRepository.
Section Methods.
Context {Ctx ObjectID Time M P W : Type}.
Context `{!mongoIdentifier.IIdentifier M} `{!postgresIdentifier.IIdentifier P}.
Context (NilObjectID : ObjectID) (zeroTime : Time).

Local Abbreviation User := (MongoUser.t ObjectID Time).

Record t : Type := mk {
  baseRepo : interfaces.BaseRepository Ctx ObjectID M P User W
}.

Definition NewMongoUserRepository
    (baseRepo : interfaces.BaseRepository Ctx ObjectID M P User W) : t :=
  mk baseRepo.

Definition CreateUser (r : t) (ctx : Ctx) (name email : string) (age : Z)
  : Op W (User * error) :=
  let user :=
    MongoUser.mk NilObjectID name email "" age true zeroTime zeroTime None in
  interfaces.Insert (baseRepo r) ctx user.

Definition FindUserByEmail (r : t) (ctx : Ctx) (email : string)
  : Op W (User * error) :=
  let filter :=
    filters.pointerTo
      (identifier.Equal "email" (VStr email) identifier.NewMongoIdentifier) in
  interfaces.FindOne (baseRepo r) ctx filter.

Definition FindActiveUsers (r : t) (ctx : Ctx) : Op W (list User * error) :=
  let filter :=
    filters.pointerTo
      (identifier.Equal "active" (VBool true) identifier.NewMongoIdentifier) in
  interfaces.FindAll (baseRepo r) ctx filter.

End Methods.
End MongoUserRepository.

(** [PostgresUserRepository] and its methods. *)
Module PostgresUserRepository.
Section Methods.
Context {Ctx Time Tombstone M P W : Type}.
Context `{!mongoIdentifier.IIdentifier M} `{!postgresIdentifier.IIdentifier P}.
Context (zeroTime : Time) (zeroTombstone : Tombstone).

Local Abbreviation User := (PostgresUser.t Time Tombstone).

Record t : Type := mk {
  baseRepo : interfaces.BaseRepository Ctx Z M P User W
}.

Definition NewPostgresUserRepository
    (baseRepo : interfaces.BaseRepository Ctx Z M P User W) : t :=
  mk baseRepo.

Definition CreateUser (r : t) (ctx : Ctx) (name email : string) (age : Z)
  : Op W (User * error) :=
  let user :=
    PostgresUser.mk 0%Z name email "" age true zeroTime zeroTime zeroTombstone in
  interfaces.Insert (baseRepo r) ctx user.

Definition FindUserByEmail (r : t) (ctx : Ctx) (email : string)
  : Op W (User * error) :=
  let filter :=
    filters.pointerTo
      (identifier.Equal "email" (VStr email) identifier.NewPostgresIdentifier) in
  interfaces.FindOne (baseRepo r) ctx filter.

Definition FindActiveUsers (r : t) (ctx : Ctx) : Op W (list User * error) :=
  let filter :=
    filters.pointerTo
      (identifier.Equal "active" (VBool true) identifier.NewPostgresIdentifier) in
  interfaces.FindAll (baseRepo r) ctx filter.

End Methods.
End PostgresUserRepository.

End usage.

(** * Properties *)

(** ** The unified identifier, for any pair of native builders *)

Section UnifiedIdentifierFacts.
Context {M P : Type}.
Context `{!mongoIdentifier.IIdentifier M} `{!postgresIdentifier.IIdentifier P}.

Local Abbreviation UI := (identifier.UnifiedIdentifier M P).

Lemma chain_cons (c : identifier.BuilderCall) calls (u : UI) :
  identifier.chain (c :: calls) u
  = identifier.chain calls (identifier.apply_call c u).
Proof. reflexivity. Qed.

(** A builder call on a Mongo-mode struct is that call on the Mongo
    builder and touches nothing else; likewise in Postgres mode. *)
Lemma apply_call_mongo (c : identifier.BuilderCall) (m : M) :
  identifier.apply_call c (identifier.mkUnified (Some m) (@None P))
  = identifier.mkUnified (Some (identifier.mongoCall c m)) None.
Proof. destruct c; reflexivity. Qed.

Lemma apply_call_postgres (c : identifier.BuilderCall) (p : P) :
  identifier.apply_call c (identifier.mkUnified (@None M) (Some p))
  = identifier.mkUnified None (Some (identifier.postgresCall c p)).
Proof. destruct c; reflexivity. Qed.

(** A chain of calls on the unified identifier is the same chain on the
    builder selected at construction. *)
Lemma chain_mongo calls : ∀ m : M,
  identifier.chain calls (identifier.mkUnified (Some m) (@None P))
  = identifier.mkUnified
      (Some (fold_left (λ acc c, identifier.mongoCall c acc) calls m)) None.
Proof.
  induction calls as [|c calls IH]; intros m; [reflexivity|].
  rewrite chain_cons, apply_call_mongo. apply IH.
Qed.

Lemma chain_postgres calls : ∀ p : P,
  identifier.chain calls (identifier.mkUnified (@None M) (Some p))
  = identifier.mkUnified None
      (Some (fold_left (λ acc c, identifier.postgresCall c acc) calls p)).
Proof.
  induction calls as [|c calls IH]; intros p; [reflexivity|].
  rewrite chain_cons, apply_call_postgres. apply IH.
Qed.

(** The extractions and [Has] of a unified identifier are those of the
    selected native builder after the same calls. *)
Lemma unified_delegates_mongo calls field :
  let u : UI := identifier.chain calls identifier.NewMongoIdentifier in
  let m := fold_left (λ acc c, identifier.mongoCall c acc) calls mongoIdentifier.New in
  identifier.ToBSON u = mongoIdentifier.ToBSON m
  ∧ identifier.Has field u = mongoIdentifier.Has field m
  ∧ identifier.GetMongoIdentifier u = Some m.
Proof.
  cbv zeta. unfold identifier.NewMongoIdentifier. rewrite chain_mongo.
  repeat split.
Qed.

Lemma unified_delegates_postgres calls field :
  let u : UI := identifier.chain calls identifier.NewPostgresIdentifier in
  let p :=
    fold_left (λ acc c, identifier.postgresCall c acc) calls
      postgresIdentifier.NewIdentifier in
  identifier.ToMap u = postgresIdentifier.ToMap p
  ∧ identifier.Has field u = bool_decide (is_Some (postgresIdentifier.ToMap p !! field))
  ∧ identifier.GetPostgresIdentifier u = Some p.
Proof.
  cbv zeta. unfold identifier.NewPostgresIdentifier. rewrite chain_postgres.
  repeat split. unfold identifier.Has. simpl.
  destruct (postgresIdentifier.ToMap _ !! field) as [x|] eqn:Hx.
  - symmetry. apply bool_decide_eq_true. eauto.
  - symmetry. apply bool_decide_eq_false. by intros [? ?].
Qed.

(** Every builder call keeps the invariant on any struct that has it. *)
Lemma apply_call_keeps_exactly_one (c : identifier.BuilderCall) (u : UI) :
  identifier.exactly_one_populated u = true →
  identifier.exactly_one_populated (identifier.apply_call c u) = true.
Proof.
  destruct u as [[m|] [p|]]; try discriminate; intros _.
  - by rewrite apply_call_mongo.
  - by rewrite apply_call_postgres.
Qed.

(** C8.  An identifier made by [NewMongoIdentifier] or by
    [NewPostgresIdentifier] has exactly one native representation
    populated, and after any chain of [Equal], [GreaterThan], [LessThan],
    [Between], [Like] and [In] calls this is still so: the selected
    representation is populated and the other one is nil. *)
Theorem exactly_one_representation (calls : list identifier.BuilderCall) :
  let viaMongo : UI := identifier.chain calls identifier.NewMongoIdentifier in
  let viaPostgres : UI := identifier.chain calls identifier.NewPostgresIdentifier in
  (identifier.exactly_one_populated viaMongo = true
   ∧ is_Some (identifier.mongoID viaMongo)
   ∧ identifier.postgresID viaMongo = None)
  ∧ (identifier.exactly_one_populated viaPostgres = true
     ∧ is_Some (identifier.postgresID viaPostgres)
     ∧ identifier.mongoID viaPostgres = None).
Proof.
  cbv zeta. unfold identifier.NewMongoIdentifier, identifier.NewPostgresIdentifier.
  rewrite chain_mongo, chain_postgres.
  cbn. eauto 10.
Qed.

(** C7.  The extraction of the backend that was not selected is empty,
    whatever was accumulated: [ToMap] on a Mongo-mode identifier and
    [ToBSON] on a Postgres-mode identifier return the empty map after any
    chain of predicate calls. *)
Theorem unselected_extraction_empty (calls : list identifier.BuilderCall) :
  identifier.ToMap
    (identifier.chain calls (identifier.NewMongoIdentifier : UI)) = ∅
  ∧ identifier.ToBSON
      (identifier.chain calls (identifier.NewPostgresIdentifier : UI)) = ∅.
Proof.
  unfold identifier.NewMongoIdentifier, identifier.NewPostgresIdentifier.
  rewrite chain_mongo, chain_postgres.
  split; reflexivity.
Qed.

End UnifiedIdentifierFacts.

(** ** The unified identifier over the reference builders *)

Section ReferenceBuilderFacts.
Import predicates.

Implicit Types (b : Builder) (c : identifier.BuilderCall) (u : Unified).

Lemma operator_key_inj op1 op2 : operator_key op1 = operator_key op2 → op1 = op2.
Proof. destruct op1, op2; simpl; intros Heq; (reflexivity || discriminate Heq). Qed.

Lemma predicates_on_record f op v b :
  predicates_on f (accumulated (record_predicate f op v b))
  = <[operator_key op := v]> (predicates_on f (accumulated b)).
Proof. unfold predicates_on, record_predicate. simpl. by rewrite lookup_insert_eq. Qed.

Lemma predicates_on_record_ne f g op v b :
  f ≠ g →
  predicates_on g (accumulated (record_predicate f op v b))
  = predicates_on g (accumulated b).
Proof.
  intros Hne. unfold predicates_on, record_predicate. simpl.
  by rewrite lookup_insert_ne.
Qed.

(** Same field, same operator: the later call replaces the earlier one. *)
Lemma record_predicate_overwrite f op v1 v2 b :
  record_predicate f op v2 (record_predicate f op v1 b)
  = record_predicate f op v2 b.
Proof.
  unfold record_predicate at 1. rewrite predicates_on_record.
  unfold record_predicate. simpl. by rewrite !insert_insert_eq.
Qed.

(** Distinct fields: the two calls commute. *)
Lemma record_predicate_commute f g op1 op2 v1 v2 b :
  f ≠ g →
  record_predicate g op2 v2 (record_predicate f op1 v1 b)
  = record_predicate f op1 v1 (record_predicate g op2 v2 b).
Proof.
  intros Hne.
  unfold record_predicate at 1 3.
  rewrite predicates_on_record_ne by done.
  rewrite predicates_on_record_ne by done.
  unfold record_predicate. simpl. f_equal. by apply insert_insert_ne.
Qed.

Lemma has_predicate_record f op v b :
  has_predicate (accumulated (record_predicate f op v b)) f op v.
Proof.
  eexists. split.
  - unfold record_predicate. simpl. apply lookup_insert_eq.
  - apply lookup_insert_eq.
Qed.

(** Same field, another operator: an earlier predicate stays. *)
Lemma has_predicate_kept f op1 op2 v w b :
  op1 ≠ op2 →
  has_predicate (accumulated b) f op1 v →
  has_predicate (accumulated (record_predicate f op2 w b)) f op1 v.
Proof.
  intros Hne (d & Hf & Hop). eexists. split.
  - unfold record_predicate. simpl. apply lookup_insert_eq.
  - unfold predicates_on. rewrite Hf. rewrite lookup_insert_ne; [done|].
    intros Hk. apply Hne. symmetry. by apply operator_key_inj.
Qed.

Lemma references_record f op v b : references f (record_predicate f op v b) = true.
Proof. unfold references, record_predicate. simpl. by rewrite lookup_insert_eq. Qed.

(** What a builder call does to an identifier in either mode. *)
Lemma apply_call_mongo_record c b :
  identifier.apply_call c (identifier.mkUnified (Some b) None : Unified)
  = identifier.mkUnified
      (Some (record_predicate (call_field c) (call_operator c) (call_operand c) b))
      None.
Proof. destruct c; reflexivity. Qed.

Lemma apply_call_postgres_record c b :
  identifier.apply_call c (identifier.mkUnified None (Some b) : Unified)
  = identifier.mkUnified None
      (Some (record_predicate (call_field c) (call_operator c) (call_operand c) b)).
Proof. destruct c; reflexivity. Qed.

Lemma chain_from_mongo calls :
  ∃ b, identifier.chain calls (identifier.NewMongoIdentifier : Unified)
       = identifier.mkUnified (Some b) None.
Proof. eexists. apply chain_mongo. Qed.

Lemma chain_from_postgres calls :
  ∃ b, identifier.chain calls (identifier.NewPostgresIdentifier : Unified)
       = identifier.mkUnified None (Some b).
Proof. eexists. apply chain_postgres. Qed.

(** Rewrites the two identifiers built by [calls] into their struct form. *)
Ltac in_both_modes calls :=
  let bm := fresh "bm" in let bp := fresh "bp" in
  destruct (chain_from_mongo calls) as [bm ->];
  destruct (chain_from_postgres calls) as [bp ->].

(** C4.  On an identifier built in either mode, right after
    [Equal(f, v)] the call [Has(f)] is true, and the extraction of the
    constructing backend ([ToBSON] in Mongo mode, [ToMap] in Postgres
    mode) holds the predicate "f equals v". *)
Theorem Equal_then_Has (f : string) (v : Value)
    (calls : list identifier.BuilderCall) :
  let viaMongo : Unified :=
    identifier.Equal f v (identifier.chain calls identifier.NewMongoIdentifier) in
  let viaPostgres : Unified :=
    identifier.Equal f v (identifier.chain calls identifier.NewPostgresIdentifier) in
  (identifier.Has f viaMongo = true
   ∧ has_predicate (identifier.ToBSON viaMongo) f OpEqual v)
  ∧ (identifier.Has f viaPostgres = true
     ∧ has_predicate (identifier.ToMap viaPostgres) f OpEqual v).
Proof.
  cbv zeta. in_both_modes calls.
  change (identifier.Equal f v ?u)
    with (identifier.apply_call (identifier.CallEqual f v) u).
  rewrite apply_call_mongo_record, apply_call_postgres_record. simpl.
  repeat split.
  - apply references_record.
  - apply has_predicate_record.
  - unfold identifier.Has. simpl. by rewrite lookup_insert_eq.
  - apply has_predicate_record.
Qed.

(** Two calls on distinct fields commute, in either mode. *)
Lemma calls_on_distinct_fields_commute calls c1 c2 :
  call_field c1 ≠ call_field c2 →
  let startMongo : Unified := identifier.chain calls identifier.NewMongoIdentifier in
  let startPostgres : Unified := identifier.chain calls identifier.NewPostgresIdentifier in
  identifier.apply_call c2 (identifier.apply_call c1 startMongo)
  = identifier.apply_call c1 (identifier.apply_call c2 startMongo)
  ∧ identifier.apply_call c2 (identifier.apply_call c1 startPostgres)
    = identifier.apply_call c1 (identifier.apply_call c2 startPostgres).
Proof.
  intros Hne. cbv zeta. in_both_modes calls.
  rewrite !apply_call_mongo_record, !apply_call_postgres_record.
  by rewrite !(record_predicate_commute _ _ _ _ _ _ _ Hne).
Qed.

(** C5.  Two calls on the same field: with the same operator the later
    call overwrites the earlier one, so the extraction is the one the
    later call alone produces ([Equal(f,v1).Equal(f,v2)] extracts as
    [Equal(f,v2)]); with different operators both predicates are in the
    extraction.  This holds in either mode, for the extraction of the
    constructing backend. *)
Theorem same_field_overwrite_or_persist
    (calls : list identifier.BuilderCall) (c1 c2 : identifier.BuilderCall)
    (Hfield : call_field c1 = call_field c2) :
  let startMongo : Unified := identifier.chain calls identifier.NewMongoIdentifier in
  let startPostgres : Unified := identifier.chain calls identifier.NewPostgresIdentifier in
  let bothMongo := identifier.apply_call c2 (identifier.apply_call c1 startMongo) in
  let bothPostgres := identifier.apply_call c2 (identifier.apply_call c1 startPostgres) in
  (call_operator c1 = call_operator c2 →
     identifier.ToBSON bothMongo
     = identifier.ToBSON (identifier.apply_call c2 startMongo)
     ∧ identifier.ToMap bothPostgres
       = identifier.ToMap (identifier.apply_call c2 startPostgres))
  ∧ (call_operator c1 ≠ call_operator c2 →
       (has_predicate (identifier.ToBSON bothMongo)
          (call_field c1) (call_operator c1) (call_operand c1)
        ∧ has_predicate (identifier.ToBSON bothMongo)
            (call_field c2) (call_operator c2) (call_operand c2))
       ∧ (has_predicate (identifier.ToMap bothPostgres)
            (call_field c1) (call_operator c1) (call_operand c1)
          ∧ has_predicate (identifier.ToMap bothPostgres)
              (call_field c2) (call_operator c2) (call_operand c2))).
Proof.
  cbv zeta. in_both_modes calls.
  rewrite !apply_call_mongo_record, !apply_call_postgres_record.
  split.
  - intros Hop. rewrite Hfield, Hop.
    by rewrite !record_predicate_overwrite.
  - intros Hop. rewrite Hfield.
    unfold identifier.ToBSON, identifier.ToMap.
    cbn [identifier.mongoID identifier.postgresID
         mongoIdentifier.ToBSON postgresIdentifier.ToMap
         mongo_builder postgres_builder].
    repeat split;
      first [ apply has_predicate_record
            | apply has_predicate_kept; [exact Hop | apply has_predicate_record] ].
Qed.

Lemma same_field_overwrite_or_persist_witness :
  identifier.ToBSON
    (identifier.Equal "f" (VInt 2)
       (identifier.Equal "f" (VInt 1)
          (identifier.NewMongoIdentifier : Unified)))
  = {[ "f" := VDoc {[ "$eq" := VInt 2 ]} ]}
  ∧ has_predicate
      (identifier.ToMap
         (identifier.GreaterThan "f" (VInt 2)
            (identifier.Equal "f" (VInt 1)
               (identifier.NewPostgresIdentifier : Unified))))
      "f" OpEqual (VInt 1).
Proof.
  split.
  - pose proof (same_field_overwrite_or_persist []
                  (identifier.CallEqual "f" (VInt 1))
                  (identifier.CallEqual "f" (VInt 2)) eq_refl) as [Hsame _].
    destruct (Hsame eq_refl) as [Hmongo _].
    etransitivity; [exact Hmongo | reflexivity].
  - pose proof (same_field_overwrite_or_persist []
                  (identifier.CallEqual "f" (VInt 1))
                  (identifier.CallGreaterThan "f" (VInt 2)) eq_refl) as [_ Hdiff].
    assert (Hne : OpEqual ≠ OpGreaterThan) by discriminate.
    destruct (Hdiff Hne) as [_ [Hfirst _]]. exact Hfirst.
Defined.

(** C6.  On distinct fields the order of the calls does not matter:
    [Equal(a,v1).GreaterThan(b,v2)] and [GreaterThan(b,v2).Equal(a,v1)]
    on identifiers of the same mode extract to the same mapping. *)
Theorem distinct_fields_order_irrelevant (a b : string) (v1 v2 : Value)
    (calls : list identifier.BuilderCall) (Hab : a ≠ b) :
  let startMongo : Unified := identifier.chain calls identifier.NewMongoIdentifier in
  let startPostgres : Unified := identifier.chain calls identifier.NewPostgresIdentifier in
  identifier.ToBSON (identifier.GreaterThan b v2 (identifier.Equal a v1 startMongo))
  = identifier.ToBSON (identifier.Equal a v1 (identifier.GreaterThan b v2 startMongo))
  ∧ identifier.ToMap (identifier.GreaterThan b v2 (identifier.Equal a v1 startPostgres))
    = identifier.ToMap (identifier.Equal a v1 (identifier.GreaterThan b v2 startPostgres)).
Proof.
  cbv zeta.
  destruct (calls_on_distinct_fields_commute calls
              (identifier.CallEqual a v1) (identifier.CallGreaterThan b v2) Hab)
    as [Hmongo Hpostgres].
  simpl in Hmongo, Hpostgres. by rewrite Hmongo, Hpostgres.
Qed.

Lemma distinct_fields_order_irrelevant_witness :
  identifier.ToBSON
    (identifier.GreaterThan "b" (VInt 2)
       (identifier.Equal "a" (VInt 1) (identifier.NewMongoIdentifier : Unified)))
  = identifier.ToBSON
      (identifier.Equal "a" (VInt 1)
         (identifier.GreaterThan "b" (VInt 2) (identifier.NewMongoIdentifier : Unified)))
  ∧ identifier.ToMap
      (identifier.GreaterThan "b" (VInt 2)
         (identifier.Equal "a" (VInt 1) (identifier.NewPostgresIdentifier : Unified)))
    = identifier.ToMap
        (identifier.Equal "a" (VInt 1)
           (identifier.GreaterThan "b" (VInt 2) (identifier.NewPostgresIdentifier : Unified))).
Proof.
  assert (Hab : "a" ≠ "b") by discriminate.
  exact (distinct_fields_order_irrelevant "a" "b" (VInt 1) (VInt 2) [] Hab).
Defined.

End ReferenceBuilderFacts.

(** ** The repository facades *)

Section FacadeFacts.
Import runtime.
Context {Ctx ID M P T D W : Type} `{!domain.SortDirections D}.

Implicit Types (rm : @mongo.BaseRepository Ctx ID M T D W).
Implicit Types (rp : @postgres.BaseRepository Ctx ID P T D W).
Implicit Types (ctx : Ctx) (w : W).
Implicit Types (filter : types.Identifier M P).
Implicit Types (filters : list (types.Identifier M P)).

(** The session the factory hands out for [ctx], and the world it leaves. *)
Local Abbreviation mongoSession rm ctx w :=
  (persistence.CreateWithContext (mongo.factory rm) ctx w).
Local Abbreviation postgresSession rp ctx w :=
  (persistence.CreateWithContext (postgres.factory rp) ctx w).

(** Unfolds a facade method down to the session calls. *)
Ltac run_facade :=
  unfold mongo.FindOne, mongo.FindAll, mongo.Update, mongo.Delete,
    mongo.SoftDelete, mongo.HardDelete, mongo.Restore,
    mongo.BulkDelete, mongo.BulkSoftDelete, mongo.BulkHardDelete,
    mongo.BeginTransaction, mongo.CommitTransaction, mongo.RollbackTransaction,
    mongo.FindAllWithPagination, mongo.GetTrashedWithPagination,
    postgres.FindOne, postgres.FindAll, postgres.Update, postgres.Delete,
    postgres.SoftDelete, postgres.HardDelete, postgres.Restore,
    postgres.BulkDelete, postgres.BulkSoftDelete, postgres.BulkHardDelete,
    postgres.BeginTransaction, postgres.CommitTransaction,
    postgres.RollbackTransaction,
    postgres.FindAllWithPagination, postgres.GetTrashedWithPagination,
    bind, call, ret, panic.

(** [FindAll] never looks at its filter. *)
Lemma FindAll_ignores_filter rm rp ctx filter filter' w :
  mongo.FindAll rm ctx filter w = mongo.FindAll rm ctx filter' w
  ∧ postgres.FindAll rp ctx filter w = postgres.FindAll rp ctx filter' w.
Proof. split; reflexivity. Qed.

(** [FindAll] is the session's [FindAll(ctx)], which takes no filter. *)
Lemma FindAll_delegates rm rp ctx filter w :
  mongo.FindAll rm ctx filter w
  = call (persistence.FindAll (mongoSession rm ctx w).1 ctx) (mongoSession rm ctx w).2
  ∧ postgres.FindAll rp ctx filter w
    = call (persistence.FindAll (postgresSession rp ctx w).1 ctx)
        (postgresSession rp ctx w).2.
Proof.
  run_facade.
  destruct (mongoSession rm ctx w) as [uowM wM].
  destruct (postgresSession rp ctx w) as [uowP wP].
  split; reflexivity.
Qed.

(** C3.  [RollbackTransaction] returns the nil error whatever the
    session's rollback answers; the rollback itself is still run on the
    session.  [BeginTransaction] and [CommitTransaction] return exactly
    what the session returns. *)
Theorem RollbackTransaction_always_nil rm rp ctx w :
  (returned (mongo.RollbackTransaction rm ctx w) = Some None
   ∧ world_after (mongo.RollbackTransaction rm ctx w)
     = (persistence.RollbackTransaction
          (mongoSession rm ctx w).1 ctx (mongoSession rm ctx w).2).2
   ∧ mongo.BeginTransaction rm ctx w
     = call (persistence.BeginTransaction (mongoSession rm ctx w).1 ctx)
         (mongoSession rm ctx w).2
   ∧ mongo.CommitTransaction rm ctx w
     = call (persistence.CommitTransaction (mongoSession rm ctx w).1 ctx)
         (mongoSession rm ctx w).2)
  ∧ (returned (postgres.RollbackTransaction rp ctx w) = Some None
     ∧ world_after (postgres.RollbackTransaction rp ctx w)
       = (persistence.RollbackTransaction
            (postgresSession rp ctx w).1 ctx (postgresSession rp ctx w).2).2
     ∧ postgres.BeginTransaction rp ctx w
       = call (persistence.BeginTransaction (postgresSession rp ctx w).1 ctx)
           (postgresSession rp ctx w).2
     ∧ postgres.CommitTransaction rp ctx w
       = call (persistence.CommitTransaction (postgresSession rp ctx w).1 ctx)
           (postgresSession rp ctx w).2).
Proof.
  run_facade.
  destruct (mongoSession rm ctx w) as [uowM wM].
  destruct (postgresSession rp ctx w) as [uowP wP]. simpl.
  destruct (persistence.RollbackTransaction uowM ctx wM) as [errM wM'].
  destruct (persistence.RollbackTransaction uowP ctx wP) as [errP wP'].
  repeat split.
Qed.

(** The translation loop on filters that all are non-nil unified
    identifiers: the native identifiers, in order. *)
Lemma mongo_nativeFilters_unified (us : list (identifier.UnifiedIdentifier M P)) w :
  mongo.nativeFilters (map (λ u, types.UnifiedPointer (Some u)) us) w
  = Returns (map identifier.GetMongoIdentifier us) w.
Proof.
  induction us as [|u us IH]; [reflexivity|].
  simpl. unfold bind at 1 2 3. simpl. unfold bind, ret in *. by rewrite IH.
Qed.

Lemma postgres_nativeFilters_unified (us : list (identifier.UnifiedIdentifier M P)) w :
  postgres.nativeFilters (map (λ u, types.UnifiedPointer (Some u)) us) w
  = Returns (map identifier.GetPostgresIdentifier us) w.
Proof.
  induction us as [|u us IH]; [reflexivity|].
  simpl. unfold bind at 1 2 3. simpl. unfold bind, ret in *. by rewrite IH.
Qed.

(** C2 (as the code has it).  [BulkDelete] translates each filter, in
    order, to its native form and hands the list to the session's
    [BulkHardDelete]; it is the same call as the facade's
    [BulkHardDelete]. *)
Theorem BulkDelete_is_BulkHardDelete rm rp ctx
    (us : list (identifier.UnifiedIdentifier M P)) w :
  let filters := map (λ u, types.UnifiedPointer (Some u)) us in
  (mongo.BulkDelete rm ctx filters w
   = call (persistence.BulkHardDelete (mongoSession rm ctx w).1 ctx
             (map identifier.GetMongoIdentifier us))
       (mongoSession rm ctx w).2
   ∧ mongo.BulkDelete rm ctx filters w = mongo.BulkHardDelete rm ctx filters w)
  ∧ (postgres.BulkDelete rp ctx filters w
     = call (persistence.BulkHardDelete (postgresSession rp ctx w).1 ctx
               (map identifier.GetPostgresIdentifier us))
         (postgresSession rp ctx w).2
     ∧ postgres.BulkDelete rp ctx filters w
       = postgres.BulkHardDelete rp ctx filters w).
Proof.
  cbv zeta. run_facade.
  destruct (mongoSession rm ctx w) as [uowM wM].
  destruct (postgresSession rp ctx w) as [uowP wP]. simpl.
  rewrite mongo_nativeFilters_unified, postgres_nativeFilters_unified.
  repeat split.
Qed.

(** The translation loop panics as soon as the list holds a filter of
    another type, and leaves the world as it was. *)
Lemma mongo_nativeFilters_panics filters filter w :
  filter ∈ filters → types.is_unified filter = false →
  ∃ p, mongo.nativeFilters filters w = Panics p w.
Proof.
  intros Hin Hother.
  induction filters as [|head rest IH]; [by apply elem_of_nil in Hin|].
  apply elem_of_cons in Hin as [<- | Hin].
  - destruct filter as [|ptr|name]; [|discriminate Hother|];
      eexists; reflexivity.
  - destruct (IH Hin) as [p Hp].
    destruct head as [|[u|]|name]; simpl; unfold bind, panic; simpl;
      [eexists; reflexivity | | eexists; reflexivity | eexists; reflexivity].
    rewrite Hp. eexists; reflexivity.
Qed.

Lemma postgres_nativeFilters_panics filters filter w :
  filter ∈ filters → types.is_unified filter = false →
  ∃ p, postgres.nativeFilters filters w = Panics p w.
Proof.
  intros Hin Hother.
  induction filters as [|head rest IH]; [by apply elem_of_nil in Hin|].
  apply elem_of_cons in Hin as [<- | Hin].
  - destruct filter as [|ptr|name]; [|discriminate Hother|];
      eexists; reflexivity.
  - destruct (IH Hin) as [p Hp].
    destruct head as [|[u|]|name]; simpl; unfold bind, panic; simpl;
      [eexists; reflexivity | | eexists; reflexivity | eexists; reflexivity].
    rewrite Hp. eexists; reflexivity.
Qed.

(** C10.  A filter that is not a pointer to [identifier.UnifiedIdentifier]
    makes [FindOne], [Update], [Delete], [SoftDelete], [HardDelete] and
    [Restore] panic on the type assertion, and makes [BulkDelete],
    [BulkSoftDelete] and [BulkHardDelete] panic on any list that holds it.
    No error is returned and no session method is reached: the world is
    the one the factory left. *)
Theorem non_unified_filter_panics rm rp ctx w filter filters (entity : T)
    (Hother : types.is_unified filter = false) (Hin : filter ∈ filters) :
  let wM := (mongoSession rm ctx w).2 in
  let wP := (postgresSession rp ctx w).2 in
  (mongo.FindOne rm ctx filter w = Panics InterfaceConversion wM
   ∧ mongo.Update rm ctx filter entity w = Panics InterfaceConversion wM
   ∧ mongo.Delete rm ctx filter w = Panics InterfaceConversion wM
   ∧ mongo.SoftDelete rm ctx filter w = Panics InterfaceConversion wM
   ∧ mongo.HardDelete rm ctx filter w = Panics InterfaceConversion wM
   ∧ mongo.Restore rm ctx filter w = Panics InterfaceConversion wM
   ∧ (∃ p, mongo.BulkDelete rm ctx filters w = Panics p wM)
   ∧ (∃ p, mongo.BulkSoftDelete rm ctx filters w = Panics p wM)
   ∧ (∃ p, mongo.BulkHardDelete rm ctx filters w = Panics p wM))
  ∧ (postgres.FindOne rp ctx filter w = Panics InterfaceConversion wP
     ∧ postgres.Update rp ctx filter entity w = Panics InterfaceConversion wP
     ∧ postgres.Delete rp ctx filter w = Panics InterfaceConversion wP
     ∧ postgres.SoftDelete rp ctx filter w = Panics InterfaceConversion wP
     ∧ postgres.HardDelete rp ctx filter w = Panics InterfaceConversion wP
     ∧ postgres.Restore rp ctx filter w = Panics InterfaceConversion wP
     ∧ (∃ p, postgres.BulkDelete rp ctx filters w = Panics p wP)
     ∧ (∃ p, postgres.BulkSoftDelete rp ctx filters w = Panics p wP)
     ∧ (∃ p, postgres.BulkHardDelete rp ctx filters w = Panics p wP)).
Proof.
  cbv zeta. run_facade.
  destruct (mongoSession rm ctx w) as [uowM wM].
  destruct (postgresSession rp ctx w) as [uowP wP]. simpl.
  destruct (mongo_nativeFilters_panics filters filter wM Hin Hother) as [pM ->].
  destruct (postgres_nativeFilters_panics filters filter wP Hin Hother) as [pP ->].
  destruct filter as [|ptr|name]; [|discriminate Hother|];
    repeat split; eexists; reflexivity.
Qed.

(** *** The sort translation *)

(** The loop of [convertSortMap], entry by entry. *)
Lemma convertSortMap_lookup (entries : gmap string types.SortDirection) :
  ∃ native : gmap string D,
    mongo.convertSortMap (Some entries) = Some native
    ∧ postgres.convertSortMap (Some entries) = Some native
    ∧ ∀ field, native !! field = entries !! field ≫= domain.counterpart.
Proof.
  eexists. split; [reflexivity|]. split; [reflexivity|].
  apply (map_fold_weak_ind
           (λ (acc : gmap string D) (m : gmap string types.SortDirection),
              ∀ field, acc !! field = m !! field ≫= domain.counterpart)).
  - intros field. by rewrite !lookup_empty.
  - intros i x m acc Hfresh IH field.
    destruct (decide (i = field)) as [->|Hne].
    + rewrite lookup_insert_eq. simpl. unfold domain.counterpart.
      unfold types.SortAsc, types.SortDesc.
      repeat case_decide; rewrite ?lookup_insert_eq; try done.
      by rewrite IH, Hfresh.
    + rewrite (lookup_insert_ne m) by done. rewrite <- IH.
      repeat case_decide; by rewrite ?lookup_insert_ne.
Qed.

(** Both paginated methods hand the session a descriptor whose sort is
    the translated one. *)
Lemma pagination_passes_translated_sort rm ctx (params : types.QueryParams T) w :
  let uow := (mongoSession rm ctx w).1 in
  let w1 := (mongoSession rm ctx w).2 in
  let queryParams :=
    domain.mkQueryParams (types.Filter params) (types.Limit params)
      (types.Offset params) (mongo.convertSortMap (types.Sort params)) in
  mongo.FindAllWithPagination rm ctx params w
  = call (persistence.FindAllWithPagination uow ctx queryParams) w1
  ∧ mongo.GetTrashedWithPagination rm ctx params w
    = call (persistence.GetTrashedWithPagination uow ctx queryParams) w1.
Proof.
  cbv zeta. run_facade.
  destruct (mongoSession rm ctx w) as [uow w1]. simpl.
  split.
  - destruct (persistence.FindAllWithPagination _ _ _ _) as [[[es n] err] w2].
    reflexivity.
  - destruct (persistence.GetTrashedWithPagination _ _ _ _) as [[[es n] err] w2].
    reflexivity.
Qed.

(** C9 (as the code has it).  A sort mapping whose directions all are
    one of the two declared constants is translated one to one, by both
    facades alike: the native mapping has the same fields, ascending maps
    to ascending and descending to descending.  A nil mapping gives a nil
    mapping and an empty one an empty one. *)
Theorem convertSortMap_one_to_one (entries : gmap string types.SortDirection)
    (Hdeclared : map_Forall
                   (λ _ direction,
                      direction = types.SortAsc ∨ direction = types.SortDesc)
                   entries) :
  (∃ native : gmap string D,
     mongo.convertSortMap (Some entries) = Some native
     ∧ postgres.convertSortMap (Some entries) = Some native
     ∧ dom native = dom entries
     ∧ (∀ field, entries !! field = Some types.SortAsc →
                 native !! field = Some domain.SortAsc)
     ∧ (∀ field, entries !! field = Some types.SortDesc →
                 native !! field = Some domain.SortDesc))
  ∧ mongo.convertSortMap None = (None : domain.SortMap D)
  ∧ postgres.convertSortMap None = (None : domain.SortMap D)
  ∧ mongo.convertSortMap (Some ∅) = Some (∅ : gmap string D)
  ∧ postgres.convertSortMap (Some ∅) = Some (∅ : gmap string D).
Proof.
  split; [|repeat split].
  destruct (convertSortMap_lookup entries) as (native & HM & HP & Hlookup).
  exists native. split; [exact HM|]. split; [exact HP|].
  split; [|split].
  - apply set_eq. intros field. rewrite !elem_of_dom, Hlookup.
    destruct (entries !! field) as [direction|] eqn:Hfield; simpl.
    + destruct (Hdeclared field direction Hfield) as [-> | ->];
        split; intros _; eauto.
    + split; intros [? ?]; done.
  - intros field Hfield. by rewrite Hlookup, Hfield.
  - intros field Hfield. by rewrite Hlookup, Hfield.
Qed.

End FacadeFacts.

(** ** The facades on the recording session *)

Section RecordedRuns.
Import runtime fixture.

(** A filter of a type of the caller's own that implements
    [types.Identifier]. *)
Local Abbreviation foreign := (types.OtherImplementation "custom.Filter" : Filter).

(** C1.  [FindAll] with the filter [active = true] on a store holding an
    active and an inactive user: both users come back, and the session
    was asked for [FindAll] without any filter.  The facade does not
    return the entities matching the filter. *)
Theorem FindAll_returns_unmatched_rows :
  (mongo.FindAll (mongoRepo [alice; bob] None) Background activeMongo []
   = Returns ([alice; bob], None) [mkRecorded "FindAll" []]
   ∧ postgres.FindAll (postgresRepo [alice; bob] None) Background activePostgres []
     = Returns ([alice; bob], None) [mkRecorded "FindAll" []])
  ∧ Active bob = false
  ∧ identifier.Has "active" (identifier.Equal "active" (VBool true)
       (identifier.NewMongoIdentifier : predicates.Unified)) = true.
Proof. repeat split. Qed.

(** [FindOne], next to it, does hand the filter to the session. *)
Example FindOne_passes_filter :
  world_after
    (mongo.FindOne (mongoRepo [alice; bob] None) Background activeMongo [])
  = [mkRecorded "FindOneByIdentifier"
       [Some (predicates.record_predicate "active" predicates.OpEqual
                (VBool true) (predicates.mkBuilder ∅))]].
Proof. reflexivity. Qed.

(** C2, refuted as stated.  On one filter, [BulkDelete] reaches the
    session's [BulkHardDelete] while [Delete] applied per element reaches
    the session's [Delete]: the two runs differ. *)
Lemma BulkDelete_differs_from_Delete_per_element :
  map method
    (world_after
       (mongo.BulkDelete (mongoRepo [] None) Background [activeMongo] []))
  = ["BulkHardDelete"]
  ∧ map method
      (world_after
         (reading.perElement (mongo.Delete (mongoRepo [] None) Background)
            [activeMongo] []))
    = ["Delete"]
  ∧ mongo.BulkDelete (mongoRepo [] None) Background [activeMongo] []
    ≠ reading.perElement (mongo.Delete (mongoRepo [] None) Background)
        [activeMongo] [].
Proof.
  split; [reflexivity|]. split; [reflexivity|].
  intros Heq.
  apply (f_equal (λ r, map method (world_after r))) in Heq.
  discriminate Heq.
Qed.

(** A session whose rollback fails: the facade still answers nil, while
    begin and commit report the failure. *)
Example rollback_failure_not_reported :
  mongo.RollbackTransaction (mongoRepo [] (Some "session failed")) Background []
  = Returns None [mkRecorded "RollbackTransaction" []]
  ∧ mongo.BeginTransaction (mongoRepo [] (Some "session failed")) Background []
    = Returns (Some "session failed") [mkRecorded "BeginTransaction" []]
  ∧ mongo.CommitTransaction (mongoRepo [] (Some "session failed")) Background []
    = Returns (Some "session failed") [mkRecorded "CommitTransaction" []].
Proof. repeat split. Qed.

Lemma non_unified_filter_panics_witness :
  mongo.FindOne (mongoRepo [alice] None) Background foreign []
  = Panics InterfaceConversion []
  ∧ ∃ p, postgres.BulkDelete (postgresRepo [alice] None) Background
           [activePostgres; foreign] []
         = Panics p [].
Proof.
  assert (Hin : foreign ∈ [activePostgres; foreign])
    by (right; left).
  destruct (non_unified_filter_panics
              (mongoRepo [alice] None) (postgresRepo [alice] None)
              Background [] foreign [activePostgres; foreign] alice
              eq_refl Hin)
    as [(Hone & _) (_ & _ & _ & _ & _ & _ & Hbulk & _)].
  split; [exact Hone | exact Hbulk].
Defined.

(** C9, refuted as stated.  A direction that is neither constant has no
    case in the switch: the field is left out of the native mapping. *)
Lemma convertSortMap_drops_undeclared_direction :
  mongo.convertSortMap (Some {[ "name" := "asc" ]}) = Some (∅ : gmap string Z)
  ∧ postgres.convertSortMap (Some {[ "name" := "asc" ]}) = Some (∅ : gmap string Z)
  ∧ dom (∅ : gmap string Z) ≠ dom ({[ "name" := "asc" ]} : gmap string string).
Proof.
  split; [reflexivity|]. split; [reflexivity|].
  rewrite dom_empty_L, dom_singleton_L. intros Heq.
  assert (Hin : "name" ∈ (∅ : gset string)) by (rewrite Heq; set_solver).
  set_solver.
Qed.

Lemma convertSortMap_one_to_one_witness :
  ∃ native : gmap string Z,
    mongo.convertSortMap
      (Some {[ "name" := types.SortAsc; "age" := types.SortDesc ]}) = Some native
    ∧ postgres.convertSortMap
        (Some {[ "name" := types.SortAsc; "age" := types.SortDesc ]}) = Some native
    ∧ dom native
      = dom ({[ "name" := types.SortAsc; "age" := types.SortDesc ]}
               : gmap string string)
    ∧ native !! "name" = Some 1%Z
    ∧ native !! "age" = Some (-1)%Z.
Proof.
  assert (Hdeclared :
            map_Forall
              (λ (_ : string) direction,
                 direction = types.SortAsc ∨ direction = types.SortDesc)
              ({[ "name" := types.SortAsc; "age" := types.SortDesc ]}
                 : gmap string types.SortDirection)).
  { intros field direction Hfield.
    apply lookup_insert_Some in Hfield as [[_ <-]|[_ Hfield]]; [by left|].
    apply lookup_singleton_Some in Hfield as [_ <-]. by right. }
  destruct (convertSortMap_one_to_one (D:=Z) _ Hdeclared)
    as [(native & HM & HP & Hdom & Hasc & Hdesc) _].
  exists native. repeat split; [exact HM | exact HP | exact Hdom | |].
  - apply Hasc. reflexivity.
  - apply Hdesc. reflexivity.
Defined.

End RecordedRuns.

(** * Further properties *)

(** ** The unified identifier, any struct and any native builders *)

Section UnifiedIdentifierMore.
Context {M P : Type}.
Context `{!mongoIdentifier.IIdentifier M} `{!postgresIdentifier.IIdentifier P}.

Local Abbreviation UI := (identifier.UnifiedIdentifier M P).

Lemma apply_call_sides (c : identifier.BuilderCall) (u : UI) :
  identifier.apply_call c u
  = identifier.mkUnified (identifier.mongoCall c <$> identifier.mongoID u)
      (identifier.postgresCall c <$> identifier.postgresID u).
Proof. destruct c, u as [[m|] [p|]]; reflexivity. Qed.

Lemma chain_sides calls : ∀ u : UI,
  identifier.chain calls u
  = identifier.mkUnified
      (fold_left (λ acc c, identifier.mongoCall c acc) calls <$> identifier.mongoID u)
      (fold_left (λ acc c, identifier.postgresCall c acc) calls
         <$> identifier.postgresID u).
Proof.
  induction calls as [|c calls IH]; intros u.
  - destruct u as [[m|] [p|]]; reflexivity.
  - rewrite chain_cons, IH, apply_call_sides.
    destruct u as [[m|] [p|]]; reflexivity.
Qed.

(** X1.  No builder call populates or clears a representation: after any
    chain of calls on any struct, [mongoID] is set exactly if it was set
    before, and so is [postgresID]. *)
Theorem representation_never_switches (calls : list identifier.BuilderCall) (u : UI) :
  (is_Some (identifier.mongoID (identifier.chain calls u))
   ↔ is_Some (identifier.mongoID u))
  ∧ (is_Some (identifier.postgresID (identifier.chain calls u))
     ↔ is_Some (identifier.postgresID u)).
Proof.
  rewrite chain_sides. simpl. split; apply fmap_is_Some.
Qed.

(** X2.  A struct with neither representation (the zero value
    [UnifiedIdentifier{}]) is inert: every chain of calls leaves it as it
    is, both extractions are empty, [Has] is false for every field and
    both getters return nil. *)
Theorem zero_value_identifier_inert (calls : list identifier.BuilderCall)
    (field : string) :
  let u : UI := identifier.chain calls (identifier.mkUnified None None) in
  u = identifier.mkUnified None None
  ∧ identifier.ToBSON u = ∅
  ∧ identifier.ToMap u = ∅
  ∧ identifier.Has field u = false
  ∧ identifier.GetMongoIdentifier u = None
  ∧ identifier.GetPostgresIdentifier u = None.
Proof. cbv zeta. rewrite chain_sides. repeat split. Qed.

(** X3.  The unified identifier adds nothing to the builder selected at
    construction: after any chain of calls, [ToBSON], [Has] and
    [GetMongoIdentifier] of a Mongo-mode identifier are those of the
    Mongo builder after the same calls, and [ToMap] and
    [GetPostgresIdentifier] of a Postgres-mode identifier are those of the
    Postgres builder. *)
Theorem unified_identifier_is_its_builder (calls : list identifier.BuilderCall)
    (field : string) :
  let viaMongo : UI := identifier.chain calls identifier.NewMongoIdentifier in
  let viaPostgres : UI := identifier.chain calls identifier.NewPostgresIdentifier in
  let m := fold_left (λ acc c, identifier.mongoCall c acc) calls mongoIdentifier.New in
  let p :=
    fold_left (λ acc c, identifier.postgresCall c acc) calls
      postgresIdentifier.NewIdentifier in
  (identifier.ToBSON viaMongo = mongoIdentifier.ToBSON m
   ∧ identifier.Has field viaMongo = mongoIdentifier.Has field m
   ∧ identifier.GetMongoIdentifier viaMongo = Some m
   ∧ identifier.GetPostgresIdentifier viaMongo = None)
  ∧ (identifier.ToMap viaPostgres = postgresIdentifier.ToMap p
     ∧ identifier.GetPostgresIdentifier viaPostgres = Some p
     ∧ identifier.GetMongoIdentifier viaPostgres = None).
Proof.
  cbv zeta. unfold identifier.NewMongoIdentifier, identifier.NewPostgresIdentifier.
  rewrite !chain_sides. repeat split.
Qed.

(** X4.  With no Mongo builder, [Has(field)] is true exactly when
    [ToMap()] has the key [field]; this covers every Postgres-mode
    identifier and the zero value. *)
Theorem Has_without_mongo_is_key_of_ToMap (p : option P) (field : string) :
  let u : UI := identifier.mkUnified None p in
  identifier.Has field u = true ↔ field ∈ dom (identifier.ToMap u).
Proof.
  cbv zeta. unfold identifier.Has, identifier.ToMap. simpl.
  rewrite elem_of_dom. destruct p as [b|]; simpl.
  - destruct (postgresIdentifier.ToMap b !! field) as [x|] eqn:Hx.
    + split; eauto.
    + split; [discriminate | by intros [? ?]].
  - rewrite lookup_empty. split; [discriminate | by intros [? ?]].
Qed.

(** *** Identifiers behind pointers *)

Lemma chainAt_cons c calls (u : positive)
    (h : gmap positive UI) :
  shared.chainAt (c :: calls) u h
  = shared.chainAt calls u (alter (identifier.apply_call c) u h).
Proof. reflexivity. Qed.

Lemma chainAt_allocated calls : ∀ (u : positive) (h : gmap positive UI) (s : UI),
  h !! u = Some s →
  shared.chainAt calls u h = (u, <[u := identifier.chain calls s]> h).
Proof.
  induction calls as [|c calls IH]; intros u h s Hu.
  - unfold shared.chainAt. simpl. by rewrite insert_id.
  - rewrite chainAt_cons.
    rewrite (IH u _ (identifier.apply_call c s)).
    + rewrite chain_cons. f_equal. apply map_eq. intros q.
      destruct (decide (u = q)) as [->|Hq].
      * by rewrite !lookup_insert_eq.
      * by rewrite !lookup_insert_ne, lookup_alter_ne.
    + by rewrite lookup_alter_eq, Hu.
Qed.

(** X5.  A fluent chain returns the pointer it started from, and the
    struct behind it is the struct the same calls build by value; no
    other address is touched.  Here the chain starts at a freshly made
    Mongo-mode or Postgres-mode identifier. *)
Theorem fluent_chain_returns_its_receiver (calls : list identifier.BuilderCall)
    (h : gmap positive UI) :
  let made := shared.NewMongoIdentifier h in
  let madeP := shared.NewPostgresIdentifier h in
  let done := shared.chainAt calls made.1 made.2 in
  let doneP := shared.chainAt calls madeP.1 madeP.2 in
  (h !! made.1 = None
   ∧ done.1 = made.1
   ∧ done.2 !! made.1
     = Some (identifier.chain calls identifier.NewMongoIdentifier)
   ∧ ∀ q, q ≠ made.1 → done.2 !! q = h !! q)
  ∧ (h !! madeP.1 = None
     ∧ doneP.1 = madeP.1
     ∧ doneP.2 !! madeP.1
       = Some (identifier.chain calls identifier.NewPostgresIdentifier)
     ∧ ∀ q, q ≠ madeP.1 → doneP.2 !! q = h !! q).
Proof.
  cbv zeta. unfold shared.NewMongoIdentifier, shared.NewPostgresIdentifier,
    shared.allocate. simpl.
  set (a := fresh (dom h)).
  assert (Hfresh : h !! a = None) by (apply not_elem_of_dom, is_fresh).
  rewrite (chainAt_allocated calls a _ identifier.NewMongoIdentifier)
    by apply lookup_insert_eq.
  rewrite (chainAt_allocated calls a _ identifier.NewPostgresIdentifier)
    by apply lookup_insert_eq.
  simpl. repeat split; try done.
  - apply lookup_insert_eq.
  - intros q Hq. by rewrite !lookup_insert_ne.
  - apply lookup_insert_eq.
  - intros q Hq. by rewrite !lookup_insert_ne.
Qed.


End UnifiedIdentifierMore.

(** ** The facades, further *)

Section FacadeMore.
Import runtime.
Context {Ctx ID M P T D W : Type} `{!domain.SortDirections D}.
Context `{!mongoIdentifier.IIdentifier M} `{!postgresIdentifier.IIdentifier P}.

Implicit Types (rm : @mongo.BaseRepository Ctx ID M T D W).
Implicit Types (rp : @postgres.BaseRepository Ctx ID P T D W).
Implicit Types (ctx : Ctx) (w : W).
Implicit Types (filters : list (types.Identifier M P)).

Local Abbreviation mongoSession rm ctx w :=
  (persistence.CreateWithContext (mongo.factory rm) ctx w).
Local Abbreviation postgresSession rp ctx w :=
  (persistence.CreateWithContext (postgres.factory rp) ctx w).

(** Unfolds the facade methods and names the two sessions. *)
Ltac open_sessions rm rp ctx w :=
  unfold mongo.FindOneById, mongo.FindOne, mongo.FindAll, mongo.Insert,
    mongo.Update, mongo.Delete, mongo.BulkInsert, mongo.BulkUpdate,
    mongo.SoftDelete, mongo.HardDelete, mongo.Restore, mongo.RestoreAll,
    mongo.GetTrashed, mongo.BulkDelete, mongo.BulkSoftDelete,
    mongo.BulkHardDelete, mongo.FindAllWithPagination,
    mongo.GetTrashedWithPagination,
    postgres.FindOneById, postgres.FindOne, postgres.FindAll, postgres.Insert,
    postgres.Update, postgres.Delete, postgres.BulkInsert, postgres.BulkUpdate,
    postgres.SoftDelete, postgres.HardDelete, postgres.Restore,
    postgres.RestoreAll, postgres.GetTrashed, postgres.BulkDelete,
    postgres.BulkSoftDelete, postgres.BulkHardDelete,
    postgres.FindAllWithPagination, postgres.GetTrashedWithPagination,
    filters.pointerTo, bind, call, ret, panic;
  let uowM := fresh "uowM" in let wM := fresh "wM" in
  let uowP := fresh "uowP" in let wP := fresh "wP" in
  destruct (mongoSession rm ctx w) as [uowM wM];
  destruct (postgresSession rp ctx w) as [uowP wP]; simpl.

(** X7.  A filter built in the facade's own mode reaches the session as
    the native builder after the same calls: [FindOne], [Update],
    [Delete], [SoftDelete], [HardDelete] and [Restore] do not panic on it
    and return what the session method returns. *)
Theorem filter_reaches_the_session rm rp ctx w
    (calls : list identifier.BuilderCall) (entity : T) :
  let uowM := (mongoSession rm ctx w).1 in
  let wM := (mongoSession rm ctx w).2 in
  let uowP := (postgresSession rp ctx w).1 in
  let wP := (postgresSession rp ctx w).2 in
  let filterM : types.Identifier M P :=
    filters.pointerTo (identifier.chain calls identifier.NewMongoIdentifier) in
  let filterP : types.Identifier M P :=
    filters.pointerTo (identifier.chain calls identifier.NewPostgresIdentifier) in
  let m :=
    Some (fold_left (λ acc c, identifier.mongoCall c acc) calls mongoIdentifier.New) in
  let p :=
    Some (fold_left (λ acc c, identifier.postgresCall c acc) calls
            postgresIdentifier.NewIdentifier) in
  (mongo.FindOne rm ctx filterM w
   = call (persistence.FindOneByIdentifier uowM ctx m) wM
   ∧ mongo.Update rm ctx filterM entity w
     = call (persistence.Update uowM ctx m entity) wM
   ∧ mongo.Delete rm ctx filterM w = call (persistence.Delete uowM ctx m) wM
   ∧ mongo.SoftDelete rm ctx filterM w
     = call (persistence.SoftDelete uowM ctx m) wM
   ∧ mongo.HardDelete rm ctx filterM w
     = call (persistence.HardDelete uowM ctx m) wM
   ∧ mongo.Restore rm ctx filterM w = call (persistence.Restore uowM ctx m) wM)
  ∧ (postgres.FindOne rp ctx filterP w
     = call (persistence.FindOneByIdentifier uowP ctx p) wP
     ∧ postgres.Update rp ctx filterP entity w
       = call (persistence.Update uowP ctx p entity) wP
     ∧ postgres.Delete rp ctx filterP w = call (persistence.Delete uowP ctx p) wP
     ∧ postgres.SoftDelete rp ctx filterP w
       = call (persistence.SoftDelete uowP ctx p) wP
     ∧ postgres.HardDelete rp ctx filterP w
       = call (persistence.HardDelete uowP ctx p) wP
     ∧ postgres.Restore rp ctx filterP w
       = call (persistence.Restore uowP ctx p) wP).
Proof.
  cbv zeta. unfold identifier.NewMongoIdentifier, identifier.NewPostgresIdentifier.
  rewrite !chain_sides. open_sessions rm rp ctx w. repeat split.
Qed.

(** The translation loop on identifiers of the other mode yields nil
    for each of them. *)
Lemma mongo_nativeFilters_other_mode (chains : list (list identifier.BuilderCall)) w :
  mongo.nativeFilters
    (map (λ cs, filters.pointerTo
                  (identifier.chain cs identifier.NewPostgresIdentifier)) chains) w
  = Returns (replicate (length chains) (@None M)) w.
Proof.
  rewrite <- (map_map _ filters.pointerTo).
  unfold filters.pointerTo. rewrite mongo_nativeFilters_unified. f_equal.
  induction chains as [|cs chains' IH]; [reflexivity|]. simpl. f_equal; [|exact IH].
  unfold identifier.NewPostgresIdentifier. by rewrite chain_sides.
Qed.

Lemma postgres_nativeFilters_other_mode (chains : list (list identifier.BuilderCall)) w :
  postgres.nativeFilters
    (map (λ cs, filters.pointerTo
                  (identifier.chain cs identifier.NewMongoIdentifier)) chains) w
  = Returns (replicate (length chains) (@None P)) w.
Proof.
  rewrite <- (map_map _ filters.pointerTo).
  unfold filters.pointerTo. rewrite postgres_nativeFilters_unified. f_equal.
  induction chains as [|cs chains' IH]; [reflexivity|]. simpl. f_equal; [|exact IH].
  unfold identifier.NewMongoIdentifier. by rewrite chain_sides.
Qed.

(** X8.  A filter built for the other backend is not rejected: the
    facade reads the representation that is not populated and calls the
    session with a nil native identifier, in the six single-filter
    methods and, element by element, in the three bulk methods. *)
Theorem other_backend_filter_reaches_session_as_nil rm rp ctx w
    (calls : list identifier.BuilderCall)
    (chains : list (list identifier.BuilderCall)) (entity : T) :
  let uowM := (mongoSession rm ctx w).1 in
  let wM := (mongoSession rm ctx w).2 in
  let uowP := (postgresSession rp ctx w).1 in
  let wP := (postgresSession rp ctx w).2 in
  let postgresMode cs : types.Identifier M P :=
    filters.pointerTo (identifier.chain cs identifier.NewPostgresIdentifier) in
  let mongoMode cs : types.Identifier M P :=
    filters.pointerTo (identifier.chain cs identifier.NewMongoIdentifier) in
  let nils {N : Type} : list (option N) := replicate (length chains) None in
  (mongo.FindOne rm ctx (postgresMode calls) w
   = call (persistence.FindOneByIdentifier uowM ctx None) wM
   ∧ mongo.Update rm ctx (postgresMode calls) entity w
     = call (persistence.Update uowM ctx None entity) wM
   ∧ mongo.Delete rm ctx (postgresMode calls) w
     = call (persistence.Delete uowM ctx None) wM
   ∧ mongo.SoftDelete rm ctx (postgresMode calls) w
     = call (persistence.SoftDelete uowM ctx None) wM
   ∧ mongo.HardDelete rm ctx (postgresMode calls) w
     = call (persistence.HardDelete uowM ctx None) wM
   ∧ mongo.Restore rm ctx (postgresMode calls) w
     = call (persistence.Restore uowM ctx None) wM
   ∧ mongo.BulkDelete rm ctx (map postgresMode chains) w
     = call (persistence.BulkHardDelete uowM ctx nils) wM
   ∧ mongo.BulkSoftDelete rm ctx (map postgresMode chains) w
     = call (persistence.BulkSoftDelete uowM ctx nils) wM
   ∧ mongo.BulkHardDelete rm ctx (map postgresMode chains) w
     = call (persistence.BulkHardDelete uowM ctx nils) wM)
  ∧ (postgres.FindOne rp ctx (mongoMode calls) w
     = call (persistence.FindOneByIdentifier uowP ctx None) wP
     ∧ postgres.Update rp ctx (mongoMode calls) entity w
       = call (persistence.Update uowP ctx None entity) wP
     ∧ postgres.Delete rp ctx (mongoMode calls) w
       = call (persistence.Delete uowP ctx None) wP
     ∧ postgres.SoftDelete rp ctx (mongoMode calls) w
       = call (persistence.SoftDelete uowP ctx None) wP
     ∧ postgres.HardDelete rp ctx (mongoMode calls) w
       = call (persistence.HardDelete uowP ctx None) wP
     ∧ postgres.Restore rp ctx (mongoMode calls) w
       = call (persistence.Restore uowP ctx None) wP
     ∧ postgres.BulkDelete rp ctx (map mongoMode chains) w
       = call (persistence.BulkHardDelete uowP ctx nils) wP
     ∧ postgres.BulkSoftDelete rp ctx (map mongoMode chains) w
       = call (persistence.BulkSoftDelete uowP ctx nils) wP
     ∧ postgres.BulkHardDelete rp ctx (map mongoMode chains) w
       = call (persistence.BulkHardDelete uowP ctx nils) wP).
Proof.
  cbv zeta.
  pose proof (mongo_nativeFilters_other_mode chains) as HM.
  pose proof (postgres_nativeFilters_other_mode chains) as HP.
  unfold mongo.FindOne, mongo.Update, mongo.Delete, mongo.SoftDelete,
    mongo.HardDelete, mongo.Restore, mongo.BulkDelete, mongo.BulkSoftDelete,
    mongo.BulkHardDelete, postgres.FindOne, postgres.Update, postgres.Delete,
    postgres.SoftDelete, postgres.HardDelete, postgres.Restore,
    postgres.BulkDelete, postgres.BulkSoftDelete, postgres.BulkHardDelete,
    bind, call.
  destruct (mongoSession rm ctx w) as [uowM wM].
  destruct (postgresSession rp ctx w) as [uowP wP].
  cbn beta iota. rewrite !HM, !HP.
  unfold filters.pointerTo, identifier.NewMongoIdentifier,
    identifier.NewPostgresIdentifier.
  rewrite !chain_sides. simpl. repeat split.
Qed.

(** X9.  A nil pointer to [UnifiedIdentifier] passes the type assertion
    and then fails on the field read: the six single-filter methods panic
    with a nil dereference, after the session was made and before any
    session method is called. *)
Theorem nil_pointer_filter_panics rm rp ctx w (entity : T) :
  let wM := (mongoSession rm ctx w).2 in
  let wP := (postgresSession rp ctx w).2 in
  let nilPointer : types.Identifier M P := types.UnifiedPointer None in
  (mongo.FindOne rm ctx nilPointer w = Panics NilPointerDereference wM
   ∧ mongo.Update rm ctx nilPointer entity w = Panics NilPointerDereference wM
   ∧ mongo.Delete rm ctx nilPointer w = Panics NilPointerDereference wM
   ∧ mongo.SoftDelete rm ctx nilPointer w = Panics NilPointerDereference wM
   ∧ mongo.HardDelete rm ctx nilPointer w = Panics NilPointerDereference wM
   ∧ mongo.Restore rm ctx nilPointer w = Panics NilPointerDereference wM)
  ∧ (postgres.FindOne rp ctx nilPointer w = Panics NilPointerDereference wP
     ∧ postgres.Update rp ctx nilPointer entity w = Panics NilPointerDereference wP
     ∧ postgres.Delete rp ctx nilPointer w = Panics NilPointerDereference wP
     ∧ postgres.SoftDelete rp ctx nilPointer w = Panics NilPointerDereference wP
     ∧ postgres.HardDelete rp ctx nilPointer w = Panics NilPointerDereference wP
     ∧ postgres.Restore rp ctx nilPointer w = Panics NilPointerDereference wP).
Proof. cbv zeta. open_sessions rm rp ctx w. repeat split. Qed.

(** The translation loop stops at the first filter it cannot use. *)
Lemma mongo_nativeFilters_first_offence filters w :
  match filters.first_offence filters with
  | Some p => mongo.nativeFilters filters w = Panics p w
  | None => ∃ natives, mongo.nativeFilters filters w = Returns natives w
                       ∧ length natives = length filters
  end.
Proof.
  induction filters as [|filter rest IH]; [by exists []|].
  destruct filter as [|[u|]|name]; simpl; try reflexivity.
  unfold bind, ret, deref. simpl.
  destruct (filters.first_offence rest) as [p|].
  - by rewrite IH.
  - destruct IH as (natives & -> & Hlen). eexists. split; [reflexivity|].
    simpl. by rewrite Hlen.
Qed.

Lemma postgres_nativeFilters_first_offence filters w :
  match filters.first_offence filters with
  | Some p => postgres.nativeFilters filters w = Panics p w
  | None => ∃ natives, postgres.nativeFilters filters w = Returns natives w
                       ∧ length natives = length filters
  end.
Proof.
  induction filters as [|filter rest IH]; [by exists []|].
  destruct filter as [|[u|]|name]; simpl; try reflexivity.
  unfold bind, ret, deref. simpl.
  destruct (filters.first_offence rest) as [p|].
  - by rewrite IH.
  - destruct IH as (natives & -> & Hlen). eexists. split; [reflexivity|].
    simpl. by rewrite Hlen.
Qed.

(** X10.  A bulk method examines its filters in order.  If one of them
    is not a non-nil pointer to [UnifiedIdentifier], the call panics with
    the panic of the first such filter and the session's bulk method is
    not reached; otherwise (in particular on the empty list) it does not
    panic. *)
Theorem bulk_panics_on_first_offence rm rp ctx filters w :
  let wM := (mongoSession rm ctx w).2 in
  let wP := (postgresSession rp ctx w).2 in
  match filters.first_offence filters with
  | Some p =>
      (mongo.BulkDelete rm ctx filters w = Panics p wM
       ∧ mongo.BulkSoftDelete rm ctx filters w = Panics p wM
       ∧ mongo.BulkHardDelete rm ctx filters w = Panics p wM)
      ∧ (postgres.BulkDelete rp ctx filters w = Panics p wP
         ∧ postgres.BulkSoftDelete rp ctx filters w = Panics p wP
         ∧ postgres.BulkHardDelete rp ctx filters w = Panics p wP)
  | None =>
      (panicked (mongo.BulkDelete rm ctx filters w) = None
       ∧ panicked (mongo.BulkSoftDelete rm ctx filters w) = None
       ∧ panicked (mongo.BulkHardDelete rm ctx filters w) = None)
      ∧ (panicked (postgres.BulkDelete rp ctx filters w) = None
         ∧ panicked (postgres.BulkSoftDelete rp ctx filters w) = None
         ∧ panicked (postgres.BulkHardDelete rp ctx filters w) = None)
  end.
Proof.
  cbv zeta. open_sessions rm rp ctx w.
  pose proof (mongo_nativeFilters_first_offence filters wM) as HM.
  pose proof (postgres_nativeFilters_first_offence filters wP) as HP.
  destruct (filters.first_offence filters) as [p|].
  - rewrite HM, HP. repeat split.
  - destruct HM as (nativesM & -> & _). destruct HP as (nativesP & -> & _).
    repeat split;
      match goal with
      | |- context [persistence.BulkHardDelete ?u ?c ?n ?w0] =>
          destruct (persistence.BulkHardDelete u c n w0)
      | |- context [persistence.BulkSoftDelete ?u ?c ?n ?w0] =>
          destruct (persistence.BulkSoftDelete u c n w0)
      end; reflexivity.
Qed.

(** X11.  [BulkSoftDelete] and [BulkHardDelete] hand the session's
    method of the same name the native identifiers of their filters, as
    many and in the same order; on the empty list the session is still
    called, with the empty list. *)
Theorem bulk_soft_and_hard_delete_in_order rm rp ctx
    (us : list (identifier.UnifiedIdentifier M P)) w :
  let uowM := (mongoSession rm ctx w).1 in
  let wM := (mongoSession rm ctx w).2 in
  let uowP := (postgresSession rp ctx w).1 in
  let wP := (postgresSession rp ctx w).2 in
  let filters := map filters.pointerTo us in
  (mongo.BulkSoftDelete rm ctx filters w
   = call (persistence.BulkSoftDelete uowM ctx
             (map identifier.GetMongoIdentifier us)) wM
   ∧ mongo.BulkHardDelete rm ctx filters w
     = call (persistence.BulkHardDelete uowM ctx
               (map identifier.GetMongoIdentifier us)) wM)
  ∧ (postgres.BulkSoftDelete rp ctx filters w
     = call (persistence.BulkSoftDelete uowP ctx
               (map identifier.GetPostgresIdentifier us)) wP
     ∧ postgres.BulkHardDelete rp ctx filters w
       = call (persistence.BulkHardDelete uowP ctx
                 (map identifier.GetPostgresIdentifier us)) wP)
  ∧ length (map identifier.GetMongoIdentifier us) = length filters
  ∧ length (map identifier.GetPostgresIdentifier us) = length filters.
Proof.
  cbv zeta. open_sessions rm rp ctx w.
  rewrite !mongo_nativeFilters_unified, !postgres_nativeFilters_unified.
  rewrite !length_map. repeat split.
Qed.


(** The methods that take no filter ([FindOneById], [Insert],
    [BulkInsert], [BulkUpdate], [GetTrashed], [RestoreAll]) never panic
    and return the values and the error of the session method of the same
    name as they are, on the session the factory made for the call. *)
Theorem filter_free_methods_pass_through rm rp ctx (id : ID) (entity : T)
    (entities : list T) w :
  let uowM := (mongoSession rm ctx w).1 in
  let wM := (mongoSession rm ctx w).2 in
  let uowP := (postgresSession rp ctx w).1 in
  let wP := (postgresSession rp ctx w).2 in
  (mongo.FindOneById rm ctx id w = call (persistence.FindOneById uowM ctx id) wM
   ∧ mongo.Insert rm ctx entity w = call (persistence.Insert uowM ctx entity) wM
   ∧ mongo.BulkInsert rm ctx entities w
     = call (persistence.BulkInsert uowM ctx entities) wM
   ∧ mongo.BulkUpdate rm ctx entities w
     = call (persistence.BulkUpdate uowM ctx entities) wM
   ∧ mongo.GetTrashed rm ctx w = call (persistence.GetTrashed uowM ctx) wM
   ∧ mongo.RestoreAll rm ctx w = call (persistence.RestoreAll uowM ctx) wM)
  ∧ (postgres.FindOneById rp ctx id w
     = call (persistence.FindOneById uowP ctx id) wP
     ∧ postgres.Insert rp ctx entity w
       = call (persistence.Insert uowP ctx entity) wP
     ∧ postgres.BulkInsert rp ctx entities w
       = call (persistence.BulkInsert uowP ctx entities) wP
     ∧ postgres.BulkUpdate rp ctx entities w
       = call (persistence.BulkUpdate uowP ctx entities) wP
     ∧ postgres.GetTrashed rp ctx w = call (persistence.GetTrashed uowP ctx) wP
     ∧ postgres.RestoreAll rp ctx w = call (persistence.RestoreAll uowP ctx) wP).
Proof. cbv zeta. open_sessions rm rp ctx w. repeat split. Qed.

End FacadeMore.

(** ** The sort translation, for every mapping *)

Section SortMore.
Context {D : Type} `{!domain.SortDirections D}.

Implicit Types (entries : gmap string string).

Lemma counterpart_is_Some (direction : string) :
  is_Some (domain.counterpart (D:=D) direction)
  ↔ direction = types.SortAsc ∨ direction = types.SortDesc.
Proof.
  unfold domain.counterpart, types.SortAsc, types.SortDesc.
  repeat case_decide; split; eauto; intros Hcase;
    try by destruct Hcase as [? ?].
  destruct Hcase; contradiction.
Qed.

(** X13.  The translation never invents a field and drops exactly the
    fields whose direction is not one of the two constants: a field is in
    the native mapping if and only if the sort mapping gives it the
    direction "ASC" or "DESC".  A non-nil mapping always translates to a
    non-nil one, even when every field is dropped. *)
Theorem convertSortMap_keeps_declared_only entries :
  ∃ native : gmap string D,
    mongo.convertSortMap (Some entries) = Some native
    ∧ postgres.convertSortMap (Some entries) = Some native
    ∧ dom native ⊆ dom entries
    ∧ ∀ field,
        field ∈ dom native
        ↔ entries !! field = Some types.SortAsc
          ∨ entries !! field = Some types.SortDesc.
Proof.
  destruct (convertSortMap_lookup (D:=D) entries) as (native & HM & HP & Hlookup).
  exists native. split; [exact HM|]. split; [exact HP|].
  assert (Hdom : ∀ field,
            field ∈ dom native
            ↔ entries !! field = Some types.SortAsc
              ∨ entries !! field = Some types.SortDesc).
  { intros field. rewrite elem_of_dom, Hlookup.
    destruct (entries !! field) as [direction|]; simpl.
    - rewrite counterpart_is_Some.
      split; [intros [-> | ->]; eauto | intros [[= ->] | [= ->]]; eauto].
    - split; [by intros [? ?] | by intros [?|?]]. }
  split; [|exact Hdom].
  intros field Hin. apply Hdom in Hin. apply elem_of_dom.
  destruct Hin as [-> | ->]; eauto.
Qed.

(** X14.  Translating after setting one field is setting that field in
    the translation: with "ASC" or "DESC" the field gets the native
    counterpart, replacing what it had; with any other direction the
    field is removed from the translation. *)
Theorem convertSortMap_after_insert entries (field direction : string) :
  ∃ native native' : gmap string D,
    mongo.convertSortMap (Some entries) = Some native
    ∧ mongo.convertSortMap (Some (<[field := direction]> entries)) = Some native'
    ∧ postgres.convertSortMap (Some entries) = Some native
    ∧ postgres.convertSortMap (Some (<[field := direction]> entries)) = Some native'
    ∧ native' = match domain.counterpart direction with
                | Some d => <[field := d]> native
                | None => delete field native
                end.
Proof.
  destruct (convertSortMap_lookup (D:=D) entries) as (native & HM & HP & Hlookup).
  destruct (convertSortMap_lookup (D:=D) (<[field := direction]> entries))
    as (native' & HM' & HP' & Hlookup').
  exists native, native'. repeat split; try assumption.
  apply map_eq. intros g. rewrite Hlookup'.
  destruct (decide (field = g)) as [->|Hne].
  - rewrite lookup_insert_eq. simpl.
    destruct (domain.counterpart direction) as [d|].
    + by rewrite lookup_insert_eq.
    + by rewrite lookup_delete_eq.
  - rewrite lookup_insert_ne by done.
    destruct (domain.counterpart direction) as [d|].
    + by rewrite lookup_insert_ne, Hlookup.
    + by rewrite lookup_delete_ne, Hlookup.
Qed.

(** X15.  On mappings that use the two constants only, and when the
    backend's ascending and descending values differ, the translation
    loses nothing: two sort mappings with the same translation are the
    same mapping. *)
Theorem convertSortMap_injective_on_declared entries1 entries2
    (Hdistinct : (domain.SortAsc : D) ≠ domain.SortDesc)
    (Hdeclared1 : map_Forall
                    (λ _ direction,
                       direction = types.SortAsc ∨ direction = types.SortDesc)
                    entries1)
    (Hdeclared2 : map_Forall
                    (λ _ direction,
                       direction = types.SortAsc ∨ direction = types.SortDesc)
                    entries2)
    (Hsame : mongo.convertSortMap (D:=D) (Some entries1)
             = mongo.convertSortMap (Some entries2)) :
  entries1 = entries2.
Proof.
  destruct (convertSortMap_lookup (D:=D) entries1) as (n1 & HM1 & _ & Hl1).
  destruct (convertSortMap_lookup (D:=D) entries2) as (n2 & HM2 & _ & Hl2).
  rewrite HM1, HM2 in Hsame. injection Hsame as ->.
  apply map_eq. intros field.
  specialize (Hl1 field). specialize (Hl2 field). rewrite Hl1 in Hl2. clear Hl1.
  assert (Hasc : domain.counterpart (D:=D) types.SortAsc = Some domain.SortAsc)
    by reflexivity.
  assert (Hdesc : domain.counterpart (D:=D) types.SortDesc = Some domain.SortDesc)
    by reflexivity.
  destruct (entries1 !! field) as [d1|] eqn:H1, (entries2 !! field) as [d2|] eqn:H2;
    simpl in Hl2; try done.
  - destruct (Hdeclared1 _ _ H1) as [-> | ->], (Hdeclared2 _ _ H2) as [-> | ->];
      try done; rewrite Hasc, Hdesc in Hl2; congruence.
  - destruct (Hdeclared1 _ _ H1) as [-> | ->]; [rewrite Hasc in Hl2|rewrite Hdesc in Hl2];
      discriminate.
  - destruct (Hdeclared2 _ _ H2) as [-> | ->]; [rewrite Hasc in Hl2|rewrite Hdesc in Hl2];
      discriminate.
Qed.

End SortMore.

Lemma convertSortMap_injective_on_declared_witness :
  ({[ "name" := types.SortAsc ]} : gmap string string)
  = {[ "name" := types.SortAsc ]}.
Proof.
  assert (Hdistinct : (domain.SortAsc : Z) ≠ domain.SortDesc) by discriminate.
  assert (Hdeclared :
            map_Forall
              (λ (_ : string) direction,
                 direction = types.SortAsc ∨ direction = types.SortDesc)
              ({[ "name" := types.SortAsc ]} : gmap string string)).
  { intros field direction Hfield.
    apply lookup_singleton_Some in Hfield as [_ <-]. by left. }
  exact (convertSortMap_injective_on_declared (D:=Z) _ _
           Hdistinct Hdeclared Hdeclared eq_refl).
Defined.

(** ** The callers of examples/usage.go and the constructors of pkg/factory *)

Section CallersAndConstructors.
Import runtime.
Context {Ctx ObjectID Time Tombstone M P D W CM CP : Type}.
Context `{!domain.SortDirections D}.
Context `{!mongoIdentifier.IIdentifier M} `{!postgresIdentifier.IIdentifier P}.
Context (NilObjectID : ObjectID) (zeroTime : Time) (zeroTombstone : Tombstone).

Local Abbreviation MUser := (usage.MongoUser.t ObjectID Time).
Local Abbreviation PUser := (usage.PostgresUser.t Time Tombstone).

Implicit Types (rm : @mongo.BaseRepository Ctx ObjectID M MUser D W).
Implicit Types (rp : @postgres.BaseRepository Ctx Z P PUser D W).
Implicit Types (ctx : Ctx) (w : W).

Local Abbreviation mongoSession rm ctx w :=
  (persistence.CreateWithContext (mongo.factory rm) ctx w).
Local Abbreviation postgresSession rp ctx w :=
  (persistence.CreateWithContext (postgres.factory rp) ctx w).

Local Abbreviation mongoUsers rm :=
  (usage.MongoUserRepository.NewMongoUserRepository
     (methods.ofMongo (P:=P) rm)).
Local Abbreviation postgresUsers rp :=
  (usage.PostgresUserRepository.NewPostgresUserRepository
     (methods.ofPostgres (M:=M) rp)).

(** X16.  On a facade, [FindUserByEmail] does not panic and asks the
    session for the one predicate "email equals the argument" on a fresh
    native builder; [CreateUser] hands the session's [Insert] a user with
    the given name, email and age that is active and has every other
    field at its zero value. *)
Theorem user_repository_reaches_the_session rm rp ctx w
    (name email : string) (age : Z) :
  let uowM := (mongoSession rm ctx w).1 in
  let wM := (mongoSession rm ctx w).2 in
  let uowP := (postgresSession rp ctx w).1 in
  let wP := (postgresSession rp ctx w).2 in
  (usage.MongoUserRepository.FindUserByEmail (mongoUsers rm) ctx email w
   = call (persistence.FindOneByIdentifier uowM ctx
             (Some (mongoIdentifier.Equal "email" (VStr email) mongoIdentifier.New)))
       wM
   ∧ usage.MongoUserRepository.CreateUser NilObjectID zeroTime
       (mongoUsers rm) ctx name email age w
     = call (persistence.Insert uowM ctx
               (usage.MongoUser.mk NilObjectID name email "" age true
                  zeroTime zeroTime None)) wM)
  ∧ (usage.PostgresUserRepository.FindUserByEmail (postgresUsers rp) ctx email w
     = call (persistence.FindOneByIdentifier uowP ctx
               (Some (postgresIdentifier.Equal "email" (VStr email)
                        postgresIdentifier.NewIdentifier)))
         wP
     ∧ usage.PostgresUserRepository.CreateUser zeroTime zeroTombstone
         (postgresUsers rp) ctx name email age w
       = call (persistence.Insert uowP ctx
                 (usage.PostgresUser.mk 0%Z name email "" age true
                    zeroTime zeroTime zeroTombstone)) wP).
Proof.
  cbv zeta.
  unfold usage.MongoUserRepository.FindUserByEmail,
    usage.MongoUserRepository.CreateUser,
    usage.PostgresUserRepository.FindUserByEmail,
    usage.PostgresUserRepository.CreateUser. simpl.
  unfold mongo.FindOne, mongo.Insert, postgres.FindOne, postgres.Insert,
    bind, call, ret.
  destruct (mongoSession rm ctx w) as [uowM wM].
  destruct (postgresSession rp ctx w) as [uowP wP]. repeat split.
Qed.

(** X17.  On a facade, [FindActiveUsers] returns whatever the session's
    [FindAll] returns: the predicate "active equals true" it builds never
    reaches the session, so inactive users are not filtered out. *)
Theorem FindActiveUsers_is_unfiltered rm rp ctx w :
  usage.MongoUserRepository.FindActiveUsers (mongoUsers rm) ctx w
  = call (persistence.FindAll (mongoSession rm ctx w).1 ctx) (mongoSession rm ctx w).2
  ∧ usage.PostgresUserRepository.FindActiveUsers (postgresUsers rp) ctx w
    = call (persistence.FindAll (postgresSession rp ctx w).1 ctx)
        (postgresSession rp ctx w).2.
Proof.
  unfold usage.MongoUserRepository.FindActiveUsers,
    usage.PostgresUserRepository.FindActiveUsers. simpl.
  unfold mongo.FindAll, postgres.FindAll, bind, call.
  destruct (mongoSession rm ctx w) as [uowM wM].
  destruct (postgresSession rp ctx w) as [uowP wP]. split; reflexivity.
Qed.

(** X18.  The repository constructors.  A nil configuration makes both
    panic before the unit-of-work constructor is called.  The Mongo
    constructor returns the error of [NewFactory] as it is, and a nil
    repository exactly when there is one.  The Postgres constructor never
    returns an error and always returns a repository. *)
Theorem constructors_errors_and_panics
    (NewFactory :
       option CM → W →
       (persistence.IUnitOfWorkFactory Ctx ObjectID M MUser D W * error) * W)
    (NewUnitOfWorkFactory :
       option CP → W → persistence.IUnitOfWorkFactory Ctx Z P PUser D W * W)
    (cfgM : factory.MongoConfig.t CM) (cfgP : factory.PostgresConfig.t CP) w :
  let made := NewFactory (factory.MongoConfig.Config cfgM) w in
  let madeP := NewUnitOfWorkFactory (factory.PostgresConfig.Config cfgP) w in
  factory.NewMongoBaseRepository (P:=P) NewFactory None w
  = Panics NilPointerDereference w
  ∧ factory.NewPostgresBaseRepository (M:=M) NewUnitOfWorkFactory None w
    = Panics NilPointerDereference w
  ∧ (∃ repo,
       factory.NewMongoBaseRepository (P:=P) NewFactory (Some cfgM) w
       = Returns (repo, made.1.2) made.2
       ∧ (repo = None ↔ made.1.2 ≠ None))
  ∧ (∃ repo,
       factory.NewPostgresBaseRepository (M:=M) NewUnitOfWorkFactory (Some cfgP) w
       = Returns (Some repo, None) madeP.2).
Proof.
  cbv zeta. split; [reflexivity|]. split; [reflexivity|].
  unfold factory.NewMongoBaseRepository, factory.NewPostgresBaseRepository,
    bind, call, ret, deref. simpl.
  destruct (NewFactory (factory.MongoConfig.Config cfgM) w) as [[f [e|]] w1];
    destruct (NewUnitOfWorkFactory (factory.PostgresConfig.Config cfgP) w)
      as [fP w2]; simpl.
  - split; [|eauto]. eexists. split; [reflexivity|]. split; [discriminate|done].
  - split; [|eauto]. eexists. split; [reflexivity|].
    split; [discriminate|]. intros Hne. by destruct Hne.
Qed.

End CallersAndConstructors.

(** ** Further runs on the recording session *)

Section RecordedMore.
Import runtime fixture.

(** A Postgres-mode filter on the Mongo facade: the session is asked
    with a nil identifier. *)
Example postgres_filter_on_mongo_facade :
  mongo.Delete (mongoRepo [alice] None) Background activePostgres []
  = Returns None [mkRecorded "Delete" [None]].
Proof. reflexivity. Qed.

(** A nil pointer among usable filters: the bulk call panics and the
    session's bulk method is not reached. *)
Example bulk_delete_with_nil_pointer :
  mongo.BulkSoftDelete (mongoRepo [alice] None) Background
    [activeMongo; types.UnifiedPointer None; types.NilIdentifier] []
  = Panics NilPointerDereference [].
Proof. reflexivity. Qed.

(** The empty list still reaches the session. *)
Example bulk_delete_of_nothing :
  mongo.BulkDelete (mongoRepo [alice] None) Background ([] : list Filter) []
  = Returns None [mkRecorded "BulkHardDelete" []].
Proof. reflexivity. Qed.

End RecordedMore.
